(** * Record registration over Supabase: vendors and bank accounts

    A shallow embedding of [index.js]: the Express handlers that create,
    read and update vendor and bank-account rows and upload their photos.

    The handlers are written as programs over the calls they await (the
    Supabase storage and database clients).  A program is a tree: it
    returns, throws, or awaits one call and continues with the answer.
    A small reference model of the two Supabase services interprets the
    calls over an explicit world (tables, stored objects, and a journal of
    the calls issued), with the failures of the services injected through
    a [backend] record. *)

From Stdlib Require Import String List.
From stdpp Require Import base option list gmap strings.

Local Open Scope string_scope.

(** ** Data *)

(** A scalar field value of a request body or of a stored row.  A number
    is kept as the text JavaScript prints for it: the program only ever
    prints field values (template literal, query filter), it never
    computes with them. *)
Inductive value : Type :=
| VNull
| VBool (b : bool)
| VNum (shown : string)
| VStr (s : string).

(** A row: a JavaScript object used as a map from field name to value. *)
Abbreviation row := (gmap string value).

(** A file as multer's memory storage hands it over. *)
Record mfile : Type := {
  originalname : string;
  mimetype : string;
  buffer : list Byte.byte
}.

(** The parts of [req] the handlers read.  [req_body] is the parsed body,
    an object of scalar fields (the text fields of a multipart form, or a
    flat JSON object).  [req_files] is [None] when
    multer left [req.files] undefined (the request was not multipart),
    and otherwise maps a field name to [req.files.<name>[0]]: multer
    creates the array of a field when it stores the field's first file,
    so an array that exists has a first element.  [req_file] is [None]
    when [req.file] is undefined. *)
Record request : Type := {
  req_params_user_id : string;
  req_body : row;
  req_files : option (gmap string mfile);
  req_file : option mfile
}.

(** What [res.json] is given. [JRow None] is [res.json(undefined)]. *)
Inductive json : Type :=
| JError (message : string)
| JRow (data : option row)
| JRows (data : list row).

Record response : Type := {
  status : nat;
  payload : json
}.

(** [res.json(x)] and [res.status(n).json(x)]. *)
Definition res_json (x : json) : response := {| status := 200; payload := x |}.
Definition res_status_json (n : nat) (x : json) : response :=
  {| status := n; payload := x |}.

(** [String(v)] for a possibly undefined value, as a template literal and
    the query builder print it. *)
Definition js_string (v : option value) : string :=
  match v with
  | None => "undefined"
  | Some VNull => "null"
  | Some (VBool true) => "true"
  | Some (VBool false) => "false"
  | Some (VNum t) => t
  | Some (VStr s) => s
  end.

(** ** Calls to the Supabase clients *)

Inductive call : Type :=
  (** [storage.from(bucket).upload(path, data, {upsert, contentType})] *)
| StorageUpload (bucket path : string) (data : list Byte.byte)
    (upsert : bool) (contentType : string)
  (** [storage.from(bucket).getPublicUrl(path)] *)
| StorageGetPublicUrl (bucket path : string)
  (** [from(table).select(columns).eq(column, arg).maybeSingle()] *)
| DbSelectMaybeSingle (table : string) (columns : list string)
    (column : string) (arg : option value)
  (** [from(table).select("*")] *)
| DbSelectAll (table : string)
  (** [from(table).select("*").eq(column, arg).single()] *)
| DbSelectSingle (table column : string) (arg : option value)
  (** [from(table).insert(rows).select()] *)
| DbInsert (table : string) (rows : list row)
  (** [from(table).update(patch).eq(column, arg).select()] *)
| DbUpdate (table : string) (patch : row) (column : string) (arg : option value).

(** What a call resolves to.  The clients answer [{ data, error }]: a sum
    with the error message on the left; the upload only has its [error]
    read, the public URL cannot fail. *)
Definition answer (c : call) : Type :=
  match c with
  | StorageUpload _ _ _ _ _ => option string
  | StorageGetPublicUrl _ _ => string
  | DbSelectMaybeSingle _ _ _ _ => (string + option row)%type
  | DbSelectAll _ => (string + list row)%type
  | DbSelectSingle _ _ _ => (string + row)%type
  | DbInsert _ _ => (string + list row)%type
  | DbUpdate _ _ _ _ => (string + list row)%type
  end.

(** ** Programs *)

Inductive prog (A : Type) : Type :=
| Ret (a : A)
| Throw (message : string)
| Await (c : call) (k : answer c → prog A).

Arguments Ret {A} a.
Arguments Throw {A} message.
Arguments Await {A} c k.

Fixpoint prog_bind {A B : Type} (f : A → prog B) (p : prog A) : prog B :=
  match p with
  | Ret a => f a
  | Throw m => Throw m
  | Await c k => Await c (λ r, prog_bind f (k r))
  end.

#[global] Instance prog_mret : MRet prog := λ A, @Ret A.
#[global] Instance prog_mbind : MBind prog := λ A B, @prog_bind A B.

(** [await c]: issue the call and resume with its answer. *)
Definition await (c : call) : prog (answer c) := Await c Ret.

(** [try { p } catch (err) { h err.message }] *)
Fixpoint try_catch {A : Type} (p : prog A) (h : string → prog A) : prog A :=
  match p with
  | Ret a => Ret a
  | Throw m => h m
  | Await c k => Await c (λ r, try_catch (k r) h)
  end.

(** The [TypeError] of reading property [p] of [undefined]. *)
Definition type_error_undefined (p : string) : string :=
  "Cannot read properties of undefined (reading '" +:+ p +:+ "')".

(** ** The handlers of [index.js] *)

(** The template literal [`${userId}/${folder}/${fileName}`]. *)
Definition file_path (userId folder fileName : string) : string :=
  userId +:+ "/" +:+ folder +:+ "/" +:+ fileName.

(** [uploadToSupabase(fileBuffer, fileName, userId, folder)] *)
Definition uploadToSupabase (fileBuffer : list Byte.byte)
    (fileName userId folder : string) : prog string :=
  let filePath := file_path userId folder fileName in
  error ← await (StorageUpload "photos" filePath fileBuffer true "image/jpeg");
  match error with
  | Some e => Throw e
  | None => await (StorageGetPublicUrl "photos" filePath)
  end.

(** [app.post("/vendors", ...)] *)
Definition post_vendors (req : request) : prog response :=
  try_catch
    (let userId := req_body req !! "user_id" in
     let phone := req_body req !! "phone" in
     r ← await (DbSelectMaybeSingle "vendors" ["user_id"] "phone" phone);
     match r with
     | inl phoneError => mret (res_status_json 400 (JError phoneError))
     | inr (Some existingVendor) =>
         mret (res_status_json 400
                 (JError "Phone number already exists for another vendor"))
     | inr None =>
         match req_files req with
         | None => Throw (type_error_undefined "personal_photo")
         | Some files =>
             let photoUrls : row := ∅ in
             photoUrls ←
               match files !! "personal_photo" with
               | Some f =>
                   url ← uploadToSupabase (buffer f) "personal.jpg" (js_string userId) "vendor";
                   mret (<["personal_photo" := VStr url]> photoUrls)
               | None => mret photoUrls
               end;
             photoUrls ←
               match files !! "aadhar_photo" with
               | Some f =>
                   url ← uploadToSupabase (buffer f) "aadhar.jpg" (js_string userId) "vendor";
                   mret (<["aadhar_photo" := VStr url]> photoUrls)
               | None => mret photoUrls
               end;
             photoUrls ←
               match files !! "cart_photo" with
               | Some f =>
                   url ← uploadToSupabase (buffer f) "cart.jpg" (js_string userId) "vendor";
                   mret (<["cart_photo" := VStr url]> photoUrls)
               | None => mret photoUrls
               end;
             r ← await (DbInsert "vendors" [photoUrls ∪ req_body req]);
             match r with
             | inl error => mret (res_status_json 400 (JError error))
             | inr data => mret (res_json (JRow (head data)))
             end
         end
     end)
    (λ err, mret (res_status_json 500 (JError err))).

(** [app.get("/vendors", ...)] *)
Definition get_vendors (req : request) : prog response :=
  r ← await (DbSelectAll "vendors");
  match r with
  | inl error => mret (res_status_json 400 (JError error))
  | inr data => mret (res_json (JRows data))
  end.

(** [app.get("/vendors/:user_id", ...)] *)
Definition get_vendors_user_id (req : request) : prog response :=
  let user_id := req_params_user_id req in
  r ← await (DbSelectSingle "vendors" "user_id" (Some (VStr user_id)));
  match r with
  | inl error => mret (res_status_json 400 (JError error))
  | inr data => mret (res_json (JRow (Some data)))
  end.

(** [app.put("/vendors/:user_id", ...)] *)
Definition put_vendors_user_id (req : request) : prog response :=
  try_catch
    (let user_id := req_params_user_id req in
     match req_files req with
     | None => Throw (type_error_undefined "personal_photo")
     | Some files =>
         let photoUrls : row := ∅ in
         photoUrls ←
           match files !! "personal_photo" with
           | Some f =>
               url ← uploadToSupabase (buffer f) "personal.jpg" user_id "vendor";
               mret (<["personal_photo" := VStr url]> photoUrls)
           | None => mret photoUrls
           end;
         photoUrls ←
           match files !! "aadhar_photo" with
           | Some f =>
               url ← uploadToSupabase (buffer f) "aadhar.jpg" user_id "vendor";
               mret (<["aadhar_photo" := VStr url]> photoUrls)
           | None => mret photoUrls
           end;
         photoUrls ←
           match files !! "cart_photo" with
           | Some f =>
               url ← uploadToSupabase (buffer f) "cart.jpg" user_id "vendor";
               mret (<["cart_photo" := VStr url]> photoUrls)
           | None => mret photoUrls
           end;
         r ← await (DbUpdate "vendors" (photoUrls ∪ req_body req)
                      "user_id" (Some (VStr user_id)));
         match r with
         | inl error => mret (res_status_json 400 (JError error))
         | inr data => mret (res_json (JRow (head data)))
         end
     end)
    (λ err, mret (res_status_json 500 (JError err))).

(** A value that is [null] or a string ([photoUrl] of the bank-account
    handlers): as a field value, and its truthiness ([null] and the empty
    string are falsy). *)
Definition nullable (v : option string) : value :=
  match v with
  | Some s => VStr s
  | None => VNull
  end.

Definition truthy (v : option string) : bool :=
  match v with
  | Some s => negb (bool_decide (s = ""))
  | None => false
  end.

(** [app.post("/bank-accounts", ...)] *)
Definition post_bank_accounts (req : request) : prog response :=
  try_catch
    (let userId := req_body req !! "user_id" in
     let accountNumber := req_body req !! "account_number" in
     r ← await (DbSelectMaybeSingle "bank_accounts" ["user_id"]
                  "account_number" accountNumber);
     match r with
     | inl accError => mret (res_status_json 400 (JError accError))
     | inr (Some existingAccount) =>
         mret (res_status_json 400 (JError "Account number already exists"))
     | inr None =>
         let photoUrl : option string := None in
         photoUrl ←
           match req_file req with
           | Some f =>
               url ← uploadToSupabase (buffer f) "passbook.jpg" (js_string userId) "bank";
               mret (Some url)
           | None => mret photoUrl
           end;
         r ← await (DbInsert "bank_accounts"
                      [<["passbook_photo" := nullable photoUrl]> (req_body req)]);
         match r with
         | inl error => mret (res_status_json 400 (JError error))
         | inr data => mret (res_json (JRow (head data)))
         end
     end)
    (λ err, mret (res_status_json 500 (JError err))).

(** [app.get("/bank-accounts", ...)] *)
Definition get_bank_accounts (req : request) : prog response :=
  r ← await (DbSelectAll "bank_accounts");
  match r with
  | inl error => mret (res_status_json 400 (JError error))
  | inr data => mret (res_json (JRows data))
  end.

(** [app.get("/bank-accounts/:user_id", ...)] *)
Definition get_bank_accounts_user_id (req : request) : prog response :=
  let user_id := req_params_user_id req in
  r ← await (DbSelectSingle "bank_accounts" "user_id" (Some (VStr user_id)));
  match r with
  | inl error => mret (res_status_json 400 (JError error))
  | inr data => mret (res_json (JRow (Some data)))
  end.

(** [app.put("/bank-accounts/:user_id", ...)] *)
Definition put_bank_accounts_user_id (req : request) : prog response :=
  try_catch
    (let user_id := req_params_user_id req in
     let photoUrl : option string := None in
     photoUrl ←
       match req_file req with
       | Some f =>
           url ← uploadToSupabase (buffer f) "passbook.jpg" user_id "bank";
           mret (Some url)
       | None => mret photoUrl
       end;
     r ← await (DbUpdate "bank_accounts"
                  ((if truthy photoUrl
                    then {["passbook_photo" := nullable photoUrl]}
                    else ∅) ∪ req_body req)
                  "user_id" (Some (VStr user_id)));
     match r with
     | inl error => mret (res_status_json 400 (JError error))
     | inr data => mret (res_json (JRow (head data)))
     end)
    (λ err, mret (res_status_json 500 (JError err))).

(** ** A reference model of the Supabase services

    The database keeps the rows as they are sent: no schema, no default
    values and no uniqueness constraint (the natural keys are only
    pre-checked by the create handlers).  An upload with [upsert]
    replaces the object at its path.  Whether the services reject a
    request is decided by the request alone ([fault]).

    An object is kept under the path string the handler passes.  The
    storage client may rewrite a path before it writes (it trims and
    collapses slashes); the model does not follow that, so a statement
    that names the key of an object is made for user ids the client
    sends as they are ([plain_id] below). *)

(** A stored object of a bucket. *)
Record object : Type := {
  content : list Byte.byte;
  content_type : string
}.

(** The world the handlers act on: the rows of each table in insertion
    order, and the objects of each bucket by [(bucket, path)]. *)
Record world : Type := {
  tables : gmap string (list row);
  objects : gmap (string * string) object
}.

(** What the services do that the program does not decide: the public URL
    of an object, and the error (if any) with which a request is rejected
    (network, policy, schema). *)
Record backend : Type := {
  public_url : string → string → string;
  fault : call → option string
}.

Definition rows_of (t : string) (w : world) : list row :=
  default [] (tables w !! t).

(** The text PostgREST compares a stored value by; [null] equals nothing. *)
Definition sql_text (v : value) : option string :=
  match v with
  | VNull => None
  | v => Some (js_string (Some v))
  end.

(** The filter [.eq(column, arg)] on a row. *)
Definition eq_filter (column : string) (arg : option value) (r : row) : bool :=
  match r !! column ≫= sql_text with
  | Some t => bool_decide (t = js_string arg)
  | None => false
  end.

(** The rows of a table that [.eq(column, arg)] selects. *)
Definition matching (t column : string) (arg : option value) (w : world) : list row :=
  filter (λ r, eq_filter column arg r = true) (rows_of t w).

(** [.select(columns)]: the row cut down to the columns asked for. *)
Definition project (columns : list string) (r : row) : row :=
  filter (λ kv, kv.1 ∈ columns) r.

(** [.update(patch)] on one row: the patch's fields replace the row's. *)
Definition apply_patch (column : string) (arg : option value) (patch r : row) : row :=
  if eq_filter column arg r then patch ∪ r else r.

Definition single_error : string :=
  "JSON object requested, multiple (or no) rows returned".
Definition exists_error : string := "The resource already exists".

Definition set_tables (w : world) (t : string) (rs : list row) : world :=
  {| tables := <[t := rs]> (tables w); objects := objects w |}.

Definition set_object (w : world) (k : string * string) (o : object) : world :=
  {| tables := tables w; objects := <[k := o]> (objects w) |}.

(** One call against the services. *)
Definition perform (B : backend) (c : call) (w : world) : answer c * world :=
  match c as c' return answer c' * world with
  | StorageUpload bucket path data upsert contentType =>
      match fault B (StorageUpload bucket path data upsert contentType) with
      | Some e => (Some e, w)
      | None =>
          if negb upsert && bool_decide (is_Some (objects w !! (bucket, path)))
          then (Some exists_error, w)
          else (None, set_object w (bucket, path)
                        {| content := data; content_type := contentType |})
      end
  | StorageGetPublicUrl bucket path => (public_url B bucket path, w)
  | DbSelectMaybeSingle t columns column arg =>
      match fault B (DbSelectMaybeSingle t columns column arg) with
      | Some e => (inl e, w)
      | None =>
          match matching t column arg w with
          | [] => (inr None, w)
          | [r] => (inr (Some (project columns r)), w)
          | _ => (inl single_error, w)
          end
      end
  | DbSelectAll t =>
      match fault B (DbSelectAll t) with
      | Some e => (inl e, w)
      | None => (inr (rows_of t w), w)
      end
  | DbSelectSingle t column arg =>
      match fault B (DbSelectSingle t column arg) with
      | Some e => (inl e, w)
      | None =>
          match matching t column arg w with
          | [r] => (inr r, w)
          | _ => (inl single_error, w)
          end
      end
  | DbInsert t rows =>
      match fault B (DbInsert t rows) with
      | Some e => (inl e, w)
      | None => (inr rows, set_tables w t (rows_of t w ++ rows))
      end
  | DbUpdate t patch column arg =>
      match fault B (DbUpdate t patch column arg) with
      | Some e => (inl e, w)
      | None =>
          (inr ((patch ∪.) <$> matching t column arg w),
           set_tables w t (apply_patch column arg patch <$> rows_of t w))
      end
  end.

(** How a program ends. *)
Inductive outcome (A : Type) : Type :=
| Returned (a : A)
| Thrown (message : string).

Arguments Returned {A} a.
Arguments Thrown {A} message.

(** A finished run: how the program ended, the world it left, and the
    calls it issued, oldest first. *)
Record finished (A : Type) : Type := {
  out : outcome A;
  final : world;
  calls : list call
}.

Arguments out {A} _.
Arguments final {A} _.
Arguments calls {A} _.

(** Running a program against the services. *)
Fixpoint run {A : Type} (B : backend) (p : prog A) (w : world) : finished A :=
  match p with
  | Ret a => {| out := Returned a; final := w; calls := [] |}
  | Throw m => {| out := Thrown m; final := w; calls := [] |}
  | Await c k =>
      let '(r, w') := perform B c w in
      match run B (k r) w' with
      | {| out := o; final := w''; calls := cs |} =>
          {| out := o; final := w''; calls := c :: cs |}
      end
  end.

(** [every_call P p]: whatever the services answer, every call [p] issues
    satisfies [P]. *)
Fixpoint every_call {A : Type} (P : call → Prop) (p : prog A) : Prop :=
  match p with
  | Ret _ => True
  | Throw _ => True
  | Await c k => P c ∧ ∀ r, every_call P (k r)
  end.

(** ** Vocabulary of the statements *)

(** The attachment slots of a vendor with the file name each is stored
    under, in the order the handlers upload them; and the one of a bank
    account. *)
Definition vendor_slots : list (string * string) :=
  [("personal_photo", "personal.jpg");
   ("aadhar_photo", "aadhar.jpg");
   ("cart_photo", "cart.jpg")].

Definition bank_slot : string * string := ("passbook_photo", "passbook.jpg").

Definition is_upload (c : call) : bool :=
  match c with
  | StorageUpload _ _ _ _ _ => true
  | _ => false
  end.

Definition is_insert (c : call) : bool :=
  match c with
  | DbInsert _ _ => true
  | _ => false
  end.

(** A read of the database: the uniqueness query of the create handlers
    is one. *)
Definition is_select (c : call) : bool :=
  match c with
  | DbSelectMaybeSingle _ _ _ _ | DbSelectAll _ | DbSelectSingle _ _ _ => true
  | _ => false
  end.

(** The object an upload call writes is in the store as written. *)
Definition stored (w : world) (c : call) : Prop :=
  match c with
  | StorageUpload bucket path data _ contentType =>
      objects w !! (bucket, path)
      = Some {| content := data; content_type := contentType |}
  | _ => True
  end.

(** An upload call has the fixed shape of slot [slot] of the request: the
    bucket [photos], the path [{userId}/{folder}/{fileName}] with the
    slot's own file name, the bytes of the slot's file, overwrite on, and
    the content type [image/jpeg]. *)
Definition fixed_upload (userId folder : string) (slots : list (string * string))
    (file_of : string → option mfile) (c : call) : Prop :=
  is_upload c = true →
  ∃ slot fileName f,
    (slot, fileName) ∈ slots ∧ file_of slot = Some f ∧
    c = StorageUpload "photos" (userId +:+ "/" +:+ folder +:+ "/" +:+ fileName)
          (buffer f) true "image/jpeg".

(** The row of an insert call satisfies [P]; the patch of an update call
    satisfies [P]. *)
Definition insert_of (P : row → Prop) (c : call) : Prop :=
  match c with
  | DbInsert _ rows => ∃ r, rows = [r] ∧ P r
  | _ => True
  end.

Definition update_of (P : row → Prop) (c : call) : Prop :=
  match c with
  | DbUpdate _ patch _ _ => P patch
  | _ => True
  end.

(** ** The four routes that upload and write *)

(** The create and update routes of the two tables, with what each reads
    from the request: the table it writes, the folder and the user id of
    its object paths, its slots and the file of a slot. *)
Inductive route : Type :=
| PostVendors
| PutVendors
| PostBankAccounts
| PutBankAccounts.

Definition handler_of (rt : route) : request → prog response :=
  match rt with
  | PostVendors => post_vendors
  | PutVendors => put_vendors_user_id
  | PostBankAccounts => post_bank_accounts
  | PutBankAccounts => put_bank_accounts_user_id
  end.

Definition table_of (rt : route) : string :=
  match rt with
  | PostVendors | PutVendors => "vendors"
  | PostBankAccounts | PutBankAccounts => "bank_accounts"
  end.

Definition folder_of (rt : route) : string :=
  match rt with
  | PostVendors | PutVendors => "vendor"
  | PostBankAccounts | PutBankAccounts => "bank"
  end.

Definition user_of (rt : route) (req : request) : string :=
  match rt with
  | PostVendors | PostBankAccounts => js_string (req_body req !! "user_id")
  | PutVendors | PutBankAccounts => req_params_user_id req
  end.

Definition slots_of (rt : route) : list (string * string) :=
  match rt with
  | PostVendors | PutVendors => vendor_slots
  | PostBankAccounts | PutBankAccounts => [bank_slot]
  end.

Definition file_in (rt : route) (req : request) (slot : string) : option mfile :=
  match rt with
  | PostVendors | PutVendors => req_files req ≫= (.!! slot)
  | PostBankAccounts | PutBankAccounts => req_file req
  end.

(** The key of the object of a slot's file name. *)
Definition object_key (rt : route) (req : request) (fileName : string) : string * string :=
  ("photos", file_path (user_of rt req) (folder_of rt) fileName).

(** A user id the storage client puts in a path as it is: not empty, and
    made of letters, digits, [-] and [_] only (no slash to trim or
    collapse, nothing a URL gives a meaning to). *)
Definition id_char (a : Ascii.ascii) : bool :=
  let n := Ascii.nat_of_ascii a in
  Nat.leb 48 n && Nat.leb n 57 || Nat.leb 65 n && Nat.leb n 90 ||
  Nat.leb 97 n && Nat.leb n 122 || Nat.eqb n 45 || Nat.eqb n 95.

Definition plain_id (s : string) : bool :=
  negb (bool_decide (s = "")) && forallb id_char (String.list_ascii_of_string s).

Definition is_update (c : call) : bool :=
  match c with
  | DbUpdate _ _ _ _ => true
  | _ => false
  end.

(** A write to the database. *)
Definition is_write (c : call) : bool := is_insert c || is_update c.

(** The natural key a create route checks, the message it answers a
    duplicate with, and the routes that list a table and look a user up
    in it. *)
Definition key_of (rt : route) : string :=
  match rt with
  | PostVendors | PutVendors => "phone"
  | PostBankAccounts | PutBankAccounts => "account_number"
  end.

Definition duplicate_message (rt : route) : string :=
  match rt with
  | PostVendors | PutVendors => "Phone number already exists for another vendor"
  | PostBankAccounts | PutBankAccounts => "Account number already exists"
  end.

Definition list_of (rt : route) : request → prog response :=
  match rt with
  | PostVendors | PutVendors => get_vendors
  | PostBankAccounts | PutBankAccounts => get_bank_accounts
  end.

Definition lookup_of (rt : route) : request → prog response :=
  match rt with
  | PostVendors | PutVendors => get_vendors_user_id
  | PostBankAccounts | PutBankAccounts => get_bank_accounts_user_id
  end.

(** ** Sample data *)

Definition demo_backend : backend :=
  {| public_url := λ bucket path, "https://cdn.example/" +:+ bucket +:+ "/" +:+ path;
     fault := λ _, None |}.

Definition vendor_u1 : row :=
  {[ "user_id" := VStr "u1"; "phone" := VStr "9999999999";
     "personal_photo" := VStr "https://cdn.example/photos/u1/vendor/personal.jpg" ]}.

Definition vendor_u2 : row :=
  {[ "user_id" := VStr "u2"; "phone" := VStr "8888888888" ]}.

Definition account_u1 : row :=
  {[ "user_id" := VStr "u1"; "account_number" := VStr "ACC1" ]}.

Definition demo_world : world :=
  {| tables := {[ "vendors" := [vendor_u1; vendor_u2];
                  "bank_accounts" := [account_u1] ]};
     objects := ∅ |}.

Definition png : mfile :=
  {| originalname := "me.png"; mimetype := "image/png";
     buffer := [Byte.x89; Byte.x50; Byte.x4e; Byte.x47] |}.

(** A second vendor registering the phone number of [u1]. *)
Definition duplicate_vendor : request :=
  {| req_params_user_id := "";
     req_body := {[ "user_id" := VStr "u3"; "phone" := VStr "9999999999" ]};
     req_files := Some {[ "cart_photo" := png ]};
     req_file := None |}.

(** A second account registering the account number of [u1]. *)
Definition duplicate_account : request :=
  {| req_params_user_id := "";
     req_body := {[ "user_id" := VStr "u3"; "account_number" := VStr "ACC1" ]};
     req_files := None;
     req_file := Some png |}.

(** A store that rejects two paths of user [u3]. *)
Definition strict_backend : backend :=
  {| public_url := public_url demo_backend;
     fault := λ c,
       match c with
       | StorageUpload _ path _ _ _ =>
           if bool_decide (path ∈ ["u3/vendor/aadhar.jpg"; "u3/bank/passbook.jpg"])
           then Some "Payload too large" else None
       | _ => None
       end |}.

(** A new vendor with a file in every slot, and a typed-in value for the
    cart photo as well. *)
Definition new_vendor : request :=
  {| req_params_user_id := "";
     req_body := {[ "user_id" := VStr "u3"; "phone" := VStr "7777777777";
                    "cart_photo" := VStr "typed-in" ]};
     req_files := Some {[ "personal_photo" := png; "aadhar_photo" := png;
                          "cart_photo" := png ]};
     req_file := None |}.

(** A new bank account with a passbook file and a typed-in value for it. *)
Definition new_account : request :=
  {| req_params_user_id := "";
     req_body := {[ "user_id" := VStr "u3"; "account_number" := VStr "ACC9";
                    "passbook_photo" := VStr "typed-in" ]};
     req_files := None;
     req_file := Some png |}.

(** A new bank account without a passbook file, but with a typed-in
    value for it; a new vendor without files, likewise. *)
Definition plain_account : request :=
  {| req_params_user_id := "";
     req_body := {[ "user_id" := VStr "u3"; "account_number" := VStr "ACC9";
                    "passbook_photo" := VStr "typed-in" ]};
     req_files := None;
     req_file := None |}.

Definition plain_vendor : request :=
  {| req_params_user_id := "";
     req_body := {[ "user_id" := VStr "u3"; "phone" := VStr "7777777777";
                    "cart_photo" := VStr "typed-in" ]};
     req_files := Some ∅;
     req_file := None |}.

(** An update of vendor [u1] that types in a value for the personal photo
    and sends no file; and one that sends a cart photo only. *)
Definition retype_personal : request :=
  {| req_params_user_id := "u1";
     req_body := {[ "personal_photo" := VStr "typed-in" ]};
     req_files := Some ∅;
     req_file := None |}.

Definition recart : request :=
  {| req_params_user_id := "u1";
     req_body := ∅;
     req_files := Some {[ "cart_photo" := png ]};
     req_file := None |}.

(** An update of the bank account of [u1] that changes the IFSC code and
    sends no file. *)
Definition rebranch : request :=
  {| req_params_user_id := "u1";
     req_body := {[ "ifsc" := VStr "SBIN0000001" ]};
     req_files := None;
     req_file := None |}.

(** An update of vendor [u2] that takes the phone number of [u1], and
    one of a bank account that takes the account number of [u1]. *)
Definition take_phone : request :=
  {| req_params_user_id := "u2";
     req_body := {[ "phone" := VStr "9999999999" ]};
     req_files := Some ∅;
     req_file := None |}.

Definition second_account : row :=
  {[ "user_id" := VStr "u2"; "account_number" := VStr "ACC2" ]}.

Definition two_accounts : world :=
  {| tables := {[ "bank_accounts" := [account_u1; second_account] ]};
     objects := ∅ |}.

Definition take_account : request :=
  {| req_params_user_id := "u2";
     req_body := {[ "account_number" := VStr "ACC1" ]};
     req_files := None;
     req_file := None |}.

(** Requests about a user that has no row: an update of a vendor, an
    update of a bank account, a lookup. *)
Definition ghost_vendor_update : request :=
  {| req_params_user_id := "ghost";
     req_body := {[ "phone" := VStr "6666666666" ]};
     req_files := Some ∅;
     req_file := None |}.

Definition ghost_account_update : request :=
  {| req_params_user_id := "ghost";
     req_body := {[ "ifsc" := VStr "SBIN0000001" ]};
     req_files := None;
     req_file := None |}.

Definition ghost_lookup : request :=
  {| req_params_user_id := "ghost";
     req_body := ∅;
     req_files := None;
     req_file := None |}.

(** The response a run of a handler sends. *)
Definition sent (B : backend) (h : request → prog response) (req : request)
    (w : world) : response :=
  match out (run B (h req) w) with
  | Returned resp => resp
  | Thrown m => {| status := 500; payload := JError m |}
  end.

(** A database that rejects every write. *)
Definition readonly_backend : backend :=
  {| public_url := public_url demo_backend;
     fault := λ c, if is_write c then Some "permission denied" else None |}.

(** An update of vendor [u3] with two new photos; an update of vendor
    [u1] sent as JSON, so without [req.files]. *)
Definition rephoto_u3 : request :=
  {| req_params_user_id := "u3";
     req_body := ∅;
     req_files := Some {[ "personal_photo" := png; "aadhar_photo" := png ]};
     req_file := None |}.

Definition json_vendor_update : request :=
  {| req_params_user_id := "u1";
     req_body := {[ "phone" := VStr "5555555555" ]};
     req_files := None;
     req_file := None |}.

(** Lookups of [u1] and of [u3]. *)
Definition lookup_u1 : request :=
  {| req_params_user_id := "u1"; req_body := ∅; req_files := None; req_file := None |}.

Definition lookup_u3 : request :=
  {| req_params_user_id := "u3"; req_body := ∅; req_files := None; req_file := None |}.

(** A new vendor without a phone number. *)
Definition keyless_vendor : request :=
  {| req_params_user_id := "";
     req_body := {[ "user_id" := VStr "u4" ]};
     req_files := Some ∅;
     req_file := None |}.

(** ** Symbolic execution of the handlers *)

(** One case split on what the run is waiting for: a fault of the
    services, a file of the request, the rows a query selects. *)
Ltac step :=
  match goal with
  | |- context [match fault ?B ?c with _ => _ end] =>
      destruct (fault B c) eqn:?
  | |- context [match req_files ?r with _ => _ end] =>
      destruct (req_files r) eqn:?
  | |- context [match req_file ?r with _ => _ end] =>
      destruct (req_file r) eqn:?
  | |- context [match @lookup _ _ _ _ ?k ?m with _ => _ end] =>
      destruct (m !! k) eqn:?
  | |- context [match matching ?t ?c ?a ?w with _ => _ end] =>
      destruct (matching t c a w) as [|? [|? ?]] eqn:?
  end; cbn.

(** What every service answers to a call, case by case. *)
Ltac answers :=
  repeat first
    [ step | split | intros [?|[?|]]; cbn | intros [?|]; cbn | intros ?; cbn ].

Ltac this_slot :=
  eexists _, _, _; (split_and!; [ | | reflexivity]);
  [ by repeat constructor | done ].

(** The cases of a membership in an explicit list. *)
Ltac members H :=
  repeat (apply elem_of_cons in H as [H|H]); [..|by apply elem_of_nil in H].

(** Name the run of the goal [f], keeping its equation as a premise, so
    that the case splits work on one copy of it. *)
Ltac named_run f :=
  cbv zeta;
  match goal with
  | |- context [run ?B ?p ?w] =>
      let Hf := fresh "Hf" in
      remember (run B p w) as f eqn:Hf; revert Hf
  end.

(** Unfold the route of the goal down to its calls. *)
Ltac run_route :=
  unfold handler_of, post_vendors, put_vendors_user_id, post_bank_accounts,
    put_bank_accounts_user_id, uploadToSupabase, await, file_path; cbn.

(** Look an object up through the objects stored after it, under other
    keys by [ne]. *)
Ltac find_object ne :=
  repeat first
    [ rewrite lookup_insert_eq; reflexivity
    | rewrite lookup_insert_ne by (by apply ne) ].

(** The rows of a table are not touched by a stored object. *)
Ltac past_objects :=
  repeat match goal with
         | |- context [rows_of ?t (set_object ?w ?k ?o)] =>
             change (rows_of t (set_object w k o)) with (rows_of t w)
         end.

(** ** Running programs *)

Lemma run_try_catch {A : Type} (B : backend) (p : prog A) (h : string → prog A) w :
  run B (try_catch p h) w =
  match run B p w with
  | {| out := Returned a; final := w1; calls := cs |} =>
      {| out := Returned a; final := w1; calls := cs |}
  | {| out := Thrown m; final := w1; calls := cs |} =>
      match run B (h m) w1 with
      | {| out := o; final := w2; calls := cs' |} =>
          {| out := o; final := w2; calls := cs ++ cs' |}
      end
  end.
Proof.
  revert w. induction p as [a|m|c k IH]; intros w; cbn.
  - done.
  - by destruct (run B (h m) w).
  - destruct (perform B c w) as [r w1]. rewrite IH.
    destruct (run B (k r) w1) as [[a|m] w2 cs]; [done|].
    by destruct (run B (h m) w2).
Qed.

(** What holds of every call a program can issue holds of the calls of
    each of its runs. *)
Lemma every_call_run {A : Type} (P : call → Prop) (B : backend) (p : prog A) w :
  every_call P p → Forall P (calls (run B p w)).
Proof.
  revert w. induction p as [a|m|c k IH]; intros w Hp; cbn in *; [done..|].
  destruct Hp as [Hc Hk]. destruct (perform B c w) as [r w1].
  specialize (IH r w1 (Hk r)). destruct (run B (k r) w1). by constructor.
Qed.

(** A handler wrapped in [try]/[catch] answers the request however its
    body ends. *)
Lemma try_catch_responds (B : backend) (p : prog response) (w : world) :
  ∃ resp,
    out (run B (try_catch p (λ err, mret (res_status_json 500 (JError err)))) w)
    = Returned resp.
Proof.
  rewrite run_try_catch. destruct (run B p w) as [[a|m] w1 cs]; cbn; by eexists.
Qed.

(** Every handler answers every request. *)
Lemma handlers_always_respond (B : backend) (w : world) (req : request)
    (h : request → prog response) :
  h ∈ [post_vendors; get_vendors; get_vendors_user_id; put_vendors_user_id;
       post_bank_accounts; get_bank_accounts; get_bank_accounts_user_id;
       put_bank_accounts_user_id] →
  ∃ resp, out (run B (h req) w) = Returned resp.
Proof.
  intros Hh. members Hh; subst; try apply try_catch_responds.
  all: unfold get_vendors, get_vendors_user_id, get_bank_accounts,
         get_bank_accounts_user_id, await; cbn.
  all: repeat step; by eexists.
Qed.

Lemma run_uploadToSupabase B w buf fileName userId folder :
  let path := userId +:+ "/" +:+ folder +:+ "/" +:+ fileName in
  let c := StorageUpload "photos" path buf true "image/jpeg" in
  run B (uploadToSupabase buf fileName userId folder) w =
  match fault B c with
  | Some e => {| out := Thrown e; final := w; calls := [c] |}
  | None =>
      {| out := Returned (public_url B "photos" path);
         final := set_object w ("photos", path)
                    {| content := buf; content_type := "image/jpeg" |};
         calls := [c; StorageGetPublicUrl "photos" path] |}
  end.
Proof.
  cbn. unfold file_path. by destruct (fault B _).
Qed.

Lemma post_vendors_uploads req :
  every_call
    (fixed_upload (js_string (req_body req !! "user_id")) "vendor" vendor_slots
       (λ slot, req_files req ≫= (.!! slot)))
    (post_vendors req).
Proof.
  unfold post_vendors, uploadToSupabase, await, fixed_upload, vendor_slots, file_path.
  cbn. split; [done|]. intros [e|[r|]]; cbn; [done..|].
  destruct (req_files req) as [files|]; cbn; [|done].
  answers; try done; this_slot.
Qed.

Lemma put_vendors_uploads req :
  every_call
    (fixed_upload (req_params_user_id req) "vendor" vendor_slots
       (λ slot, req_files req ≫= (.!! slot)))
    (put_vendors_user_id req).
Proof.
  unfold put_vendors_user_id, uploadToSupabase, await, fixed_upload, vendor_slots, file_path.
  destruct (req_files req) as [files|]; cbn; [|done].
  answers; try done; this_slot.
Qed.

Lemma post_bank_accounts_uploads req :
  every_call
    (fixed_upload (js_string (req_body req !! "user_id")) "bank" [bank_slot]
       (λ _, req_file req))
    (post_bank_accounts req).
Proof.
  unfold post_bank_accounts, uploadToSupabase, await, fixed_upload, bank_slot, file_path.
  cbn. split; [done|]. intros [e|[r|]]; cbn; [done..|].
  answers; try done; this_slot.
Qed.

Lemma put_bank_accounts_uploads req :
  every_call
    (fixed_upload (req_params_user_id req) "bank" [bank_slot] (λ _, req_file req))
    (put_bank_accounts_user_id req).
Proof.
  unfold put_bank_accounts_user_id, uploadToSupabase, await, fixed_upload, bank_slot, file_path.
  answers; try done; this_slot.
Qed.

(** C7. The uploader stores a file under [{userId}/{folder}/{fileName}] in
    the bucket [photos], overwriting ([upsert]) and always with the content
    type [image/jpeg]; when the store accepts the file it returns the
    public URL of that path, and when the store rejects it the uploader
    throws the store's error.  In the four handlers that upload, every
    upload call has this shape for one of the handler's own slots that
    holds a file, with the slot's fixed file name ([personal.jpg],
    [aadhar.jpg], [cart.jpg]; [passbook.jpg]) whatever the name and the
    type of the file received. *)
Theorem upload_fixed_path_and_type :
  (∀ B w buf fileName userId folder,
     let path := userId +:+ "/" +:+ folder +:+ "/" +:+ fileName in
     let c := StorageUpload "photos" path buf true "image/jpeg" in
     run B (uploadToSupabase buf fileName userId folder) w =
     match fault B c with
     | Some e => {| out := Thrown e; final := w; calls := [c] |}
     | None =>
         {| out := Returned (public_url B "photos" path);
            final := set_object w ("photos", path)
                       {| content := buf; content_type := "image/jpeg" |};
            calls := [c; StorageGetPublicUrl "photos" path] |}
     end) ∧
  (∀ req,
     every_call
       (fixed_upload (js_string (req_body req !! "user_id")) "vendor" vendor_slots
          (λ slot, req_files req ≫= (.!! slot)))
       (post_vendors req) ∧
     every_call
       (fixed_upload (req_params_user_id req) "vendor" vendor_slots
          (λ slot, req_files req ≫= (.!! slot)))
       (put_vendors_user_id req) ∧
     every_call
       (fixed_upload (js_string (req_body req !! "user_id")) "bank" [bank_slot]
          (λ _, req_file req))
       (post_bank_accounts req) ∧
     every_call
       (fixed_upload (req_params_user_id req) "bank" [bank_slot] (λ _, req_file req))
       (put_bank_accounts_user_id req)).
Proof.
  split; [apply run_uploadToSupabase|]. intros req.
  auto using post_vendors_uploads, put_vendors_uploads,
    post_bank_accounts_uploads, put_bank_accounts_uploads.
Qed.

Lemma matching_nonempty t column arg w r :
  r ∈ rows_of t w → eq_filter column arg r = true → matching t column arg w ≠ [].
Proof.
  intros Hr Hm Hnil.
  assert (r ∈ matching t column arg w) as Hin by by apply list_elem_of_filter.
  rewrite Hnil in Hin. by apply not_elem_of_nil in Hin.
Qed.

(** C1. A create request whose natural key (the phone of a vendor, the
    account number of a bank account) is the key of a stored row is
    answered with status 400 after the uniqueness query alone: no upload
    and no insert is issued, and the world is left as it was.  When the
    store answers the query and holds exactly one such row, the message
    is the handler's own duplicate-key message. *)
Theorem duplicate_key_rejected (B : backend) (w : world) (req : request) :
  ((∃ r, r ∈ rows_of "vendors" w ∧
         eq_filter "phone" (req_body req !! "phone") r = true) →
   let q := DbSelectMaybeSingle "vendors" ["user_id"] "phone"
              (req_body req !! "phone") in
   ∃ msg,
     run B (post_vendors req) w =
       {| out := Returned {| status := 400; payload := JError msg |};
          final := w; calls := [q] |} ∧
     (fault B q = None →
      length (matching "vendors" "phone" (req_body req !! "phone") w) = 1 →
      msg = "Phone number already exists for another vendor")) ∧
  ((∃ r, r ∈ rows_of "bank_accounts" w ∧
         eq_filter "account_number" (req_body req !! "account_number") r = true) →
   let q := DbSelectMaybeSingle "bank_accounts" ["user_id"] "account_number"
              (req_body req !! "account_number") in
   ∃ msg,
     run B (post_bank_accounts req) w =
       {| out := Returned {| status := 400; payload := JError msg |};
          final := w; calls := [q] |} ∧
     (fault B q = None →
      length (matching "bank_accounts" "account_number"
                (req_body req !! "account_number") w) = 1 →
      msg = "Account number already exists")).
Proof.
  split; intros (r & Hr & Hm) q; subst q;
    pose proof (matching_nonempty _ _ _ _ _ Hr Hm) as Hne;
    unfold post_vendors, post_bank_accounts, await; cbn.
  all: destruct (fault B _) as [e|]; cbn; [by eexists|].
  all: destruct (matching _ _ _ w) as [|r1 [|r2 rs]]; cbn; [done|by eexists..].
Qed.

(** A third user registers the phone number, and the account number, of
    [u1]. *)
Lemma duplicate_key_rejected_witness :
  (∃ msg,
     run demo_backend (post_vendors duplicate_vendor) demo_world =
       {| out := Returned {| status := 400; payload := JError msg |};
          final := demo_world;
          calls := [DbSelectMaybeSingle "vendors" ["user_id"] "phone"
                      (Some (VStr "9999999999"))] |} ∧
     msg = "Phone number already exists for another vendor") ∧
  (∃ msg,
     run demo_backend (post_bank_accounts duplicate_account) demo_world =
       {| out := Returned {| status := 400; payload := JError msg |};
          final := demo_world;
          calls := [DbSelectMaybeSingle "bank_accounts" ["user_id"] "account_number"
                      (Some (VStr "ACC1"))] |} ∧
     msg = "Account number already exists").
Proof.
  destruct (duplicate_key_rejected demo_backend demo_world duplicate_vendor)
    as [Hv _].
  destruct (duplicate_key_rejected demo_backend demo_world duplicate_account)
    as [_ Ha].
  split.
  - destruct Hv as (msg & Hrun & Hmsg).
    { exists vendor_u1. split; [|reflexivity]. vm_compute. left. }
    exists msg. split; [exact Hrun|]. apply Hmsg; reflexivity.
  - destruct Ha as (msg & Hrun & Hmsg).
    { exists account_u1. split; [|reflexivity]. vm_compute. left. }
    exists msg. split; [exact Hrun|]. apply Hmsg; reflexivity.
Defined.

Lemma append_cancel (a x y : string) : a +:+ x = a +:+ y → x = y.
Proof. induction a as [|ch a IH]; cbn; [done|]. intros [= H]. auto. Qed.

(** Two file names under one folder of one user are two paths. *)
Lemma path_ne (bucket u x y : string) :
  x ≠ y → (bucket, u +:+ x) ≠ (bucket, u +:+ y).
Proof. intros Hne [= H]. by apply append_cancel in H. Qed.

Lemma rows_of_set_tables w t rs : rows_of t (set_tables w t rs) = rs.
Proof. unfold rows_of, set_tables. cbn. by rewrite lookup_insert_eq. Qed.

(** C2. When the upload of a slot fails during a create request, the
    handler answers with status 500 and the store's error, no insert is
    issued and the tables are as before; the files of the slots uploaded
    before the failing one are in the attachment store as written. *)
Theorem upload_failure_aborts_create (B : backend) (w : world) (req : request)
    (h : request → prog response) (c : call) (e : string) :
  h = post_vendors ∨ h = post_bank_accounts →
  let f := run B (h req) w in
  c ∈ calls f → is_upload c = true → fault B c = Some e →
  out f = Returned {| status := 500; payload := JError e |} ∧
  Forall (λ c', is_insert c' = false) (calls f) ∧
  tables (final f) = tables w ∧
  ∀ c', c' ∈ calls f → is_upload c' = true → c' ≠ c → stored (final f) c'.
Proof.
  intros [-> | ->]; named_run f;
    unfold post_vendors, post_bank_accounts, uploadToSupabase, await, file_path;
    cbn; repeat step.
  all: intros -> Hin Hup Hc; cbn in *; members Hin; subst;
    try discriminate Hup; try congruence.
  all: match goal with
       | H : fault ?B ?c = Some ?e1, H' : fault ?B ?c = Some ?e2 |- _ =>
           rewrite H in H'; injection H' as ->
       end.
  all: (split_and!; [done | by repeat constructor | done |]).
  all: intros c' Hin' Hup' Hne; members Hin'; subst;
    try discriminate Hup'; try done; cbn.
  all: try by rewrite lookup_insert_eq.
  all: by (rewrite lookup_insert_ne; [by rewrite lookup_insert_eq | by apply path_ne]).
Qed.

(** The store rejects the Aadhaar photo of a new vendor: the personal
    photo uploaded before it stays in the store. *)
Lemma upload_failure_aborts_create_witness :
  let c := StorageUpload "photos" "u3/vendor/aadhar.jpg" (buffer png) true "image/jpeg" in
  let c' := StorageUpload "photos" "u3/vendor/personal.jpg" (buffer png) true "image/jpeg" in
  let f := run strict_backend (post_vendors new_vendor) demo_world in
  out f = Returned {| status := 500; payload := JError "Payload too large" |} ∧
  Forall (λ c', is_insert c' = false) (calls f) ∧
  tables (final f) = tables demo_world ∧
  stored (final f) c'.
Proof.
  intros c c' f.
  destruct (upload_failure_aborts_create strict_backend demo_world new_vendor
              post_vendors c "Payload too large") as (Hout & Hins & Htab & Hst).
  - by left.
  - vm_compute. by repeat constructor.
  - reflexivity.
  - reflexivity.
  - split_and!; [exact Hout | exact Hins | exact Htab |].
    apply Hst; [vm_compute; by repeat constructor | reflexivity | discriminate].
Defined.

(** C4. When a create request succeeds, the row inserted and returned
    holds, for every slot that came with a file, the public URL of the
    uploaded file, whatever the body holds for that slot; a field that
    came without a file holds what the body holds for it. *)
Theorem uploaded_url_overrides_field (B : backend) (w : world) (req : request) :
  (∀ files slot fileName f resp,
     req_files req = Some files →
     (slot, fileName) ∈ vendor_slots →
     files !! slot = Some f →
     let r := run B (post_vendors req) w in
     out r = Returned resp → status resp = 200 →
     ∃ row,
       DbInsert "vendors" [row] ∈ calls r ∧
       rows_of "vendors" (final r) = (rows_of "vendors" w ++ [row])%list ∧
       payload resp = JRow (Some row) ∧
       row !! slot =
         Some (VStr (public_url B "photos"
                       (js_string (req_body req !! "user_id") +:+ "/" +:+ "vendor"
                          +:+ "/" +:+ fileName))) ∧
       ∀ k, files !! k = None → row !! k = req_body req !! k) ∧
  (∀ f resp,
     req_file req = Some f →
     let r := run B (post_bank_accounts req) w in
     out r = Returned resp → status resp = 200 →
     ∃ row,
       DbInsert "bank_accounts" [row] ∈ calls r ∧
       rows_of "bank_accounts" (final r) = (rows_of "bank_accounts" w ++ [row])%list ∧
       payload resp = JRow (Some row) ∧
       row !! "passbook_photo" =
         Some (VStr (public_url B "photos"
                       (js_string (req_body req !! "user_id") +:+ "/" +:+ "bank"
                          +:+ "/" +:+ "passbook.jpg"))) ∧
       ∀ k, k ≠ "passbook_photo" → row !! k = req_body req !! k).
Proof.
  split.
  - intros files slot fileName f resp Hfiles Hslot Hfile. named_run r.
    unfold post_vendors, uploadToSupabase, await, file_path. cbn.
    rewrite Hfiles. cbn. repeat step.
    all: intros -> [= <-]; cbn; try discriminate.
    all: intros _; eexists;
      (split_and!; [by repeat constructor | | reflexivity | | ]).
    all: try apply rows_of_set_tables.
    all: try (intros k Hk; apply lookup_union_r;
              rewrite ?lookup_insert, ?lookup_empty; repeat case_decide;
              by simplify_eq).
    all: members Hslot; simplify_eq.
    all: by (erewrite lookup_union_Some_l; [done|]; simplify_map_eq).
  - intros f resp Hfile. named_run r.
    unfold post_bank_accounts, uploadToSupabase, await, file_path. cbn.
    rewrite Hfile. cbn. repeat step.
    all: intros -> [= <-]; cbn; try discriminate.
    intros _. eexists.
    split_and!; [by repeat constructor | apply rows_of_set_tables | reflexivity | | ].
    + by rewrite lookup_insert_eq.
    + intros k Hk. by rewrite lookup_insert_ne.
Qed.

(** A typed-in cart photo, and passbook photo, is replaced by the URL of
    the uploaded file. *)
Lemma uploaded_url_overrides_field_witness :
  (∃ row,
     rows_of "vendors" (final (run demo_backend (post_vendors new_vendor) demo_world))
       = [vendor_u1; vendor_u2; row] ∧
     req_body new_vendor !! "cart_photo" = Some (VStr "typed-in") ∧
     row !! "cart_photo" = Some (VStr "https://cdn.example/photos/u3/vendor/cart.jpg")) ∧
  (∃ row,
     rows_of "bank_accounts"
       (final (run demo_backend (post_bank_accounts new_account) demo_world))
       = [account_u1; row] ∧
     req_body new_account !! "passbook_photo" = Some (VStr "typed-in") ∧
     row !! "passbook_photo"
       = Some (VStr "https://cdn.example/photos/u3/bank/passbook.jpg")).
Proof.
  split.
  - destruct (uploaded_url_overrides_field demo_backend demo_world new_vendor)
      as [Hv _].
    destruct (Hv {[ "personal_photo" := png; "aadhar_photo" := png;
                    "cart_photo" := png ]} "cart_photo" "cart.jpg" png
                (res_json (JRow (Some ({[ "personal_photo" := VStr "https://cdn.example/photos/u3/vendor/personal.jpg";
                     "aadhar_photo" := VStr "https://cdn.example/photos/u3/vendor/aadhar.jpg";
                     "cart_photo" := VStr "https://cdn.example/photos/u3/vendor/cart.jpg" ]}
                   ∪ req_body new_vendor)))))
      as (row & _ & Hrows & _ & Hslot & _).
    + reflexivity.
    + by repeat constructor.
    + reflexivity.
    + vm_compute. reflexivity.
    + reflexivity.
    + exists row. split_and!; [exact Hrows | reflexivity | exact Hslot].
  - destruct (uploaded_url_overrides_field demo_backend demo_world new_account)
      as [_ Ha].
    destruct (Ha png
                (res_json (JRow (Some (<["passbook_photo" := VStr "https://cdn.example/photos/u3/bank/passbook.jpg"]>
                   (req_body new_account))))))
      as (row & _ & Hrows & _ & Hslot & _).
    + reflexivity.
    + vm_compute. reflexivity.
    + reflexivity.
    + exists row. split_and!; [exact Hrows | reflexivity | exact Hslot].
Defined.

(** C5, as the code has it.  A bank-account create request without a
    passbook file inserts a row whose [passbook_photo] is [null], whatever
    the body holds for that field, and leaves the other fields as the
    body has them; when the
    uniqueness query finds no row the insert of that row is the only
    other call.  The vendor create adds nothing for a slot without a
    file: the row it inserts holds for that slot what the body holds, and
    has no such field when the body has none. *)
Theorem bank_create_nulls_missing_passbook (req : request) :
  (req_file req = None →
   every_call
     (insert_of (λ r, r !! "passbook_photo" = Some VNull ∧
                      ∀ k, k ≠ "passbook_photo" → r !! k = req_body req !! k))
     (post_bank_accounts req) ∧
   ∀ B w,
     let q := DbSelectMaybeSingle "bank_accounts" ["user_id"] "account_number"
                (req_body req !! "account_number") in
     fault B q = None →
     matching "bank_accounts" "account_number" (req_body req !! "account_number") w = [] →
     calls (run B (post_bank_accounts req) w) =
       [q; DbInsert "bank_accounts" [<["passbook_photo" := VNull]> (req_body req)]]) ∧
  (∀ files slot,
     req_files req = Some files → files !! slot = None →
     every_call (insert_of (λ r, r !! slot = req_body req !! slot)) (post_vendors req)).
Proof.
  split.
  - intros Hfile. split.
    + unfold post_bank_accounts, uploadToSupabase, await, file_path, insert_of.
      rewrite Hfile. cbn. answers; try done.

      eexists. split; [done|]. split; [by rewrite lookup_insert_eq|].
      intros k Hk. by rewrite lookup_insert_ne.
    + intros B w q Hq Hm. subst q.
      unfold post_bank_accounts, uploadToSupabase, await, file_path, insert_of.
      rewrite Hfile. cbn. rewrite Hq, Hm. cbn. by step.
  - intros files slot Hfiles Hslot.
    unfold post_vendors, uploadToSupabase, await, file_path, insert_of.
    rewrite Hfiles. cbn. answers; try done.
    all: eexists; (split; [done|]); apply lookup_union_r.
    all: rewrite ?lookup_insert, ?lookup_empty; repeat case_decide; by simplify_eq.
Qed.

(** A typed-in passbook photo without a file is inserted as [null]; a
    vendor without files gets no personal photo field. *)
Lemma bank_create_nulls_missing_passbook_witness :
  req_body plain_account !! "passbook_photo" = Some (VStr "typed-in") ∧
  calls (run demo_backend (post_bank_accounts plain_account) demo_world) =
    [DbSelectMaybeSingle "bank_accounts" ["user_id"] "account_number"
       (Some (VStr "ACC9"));
     DbInsert "bank_accounts"
       [<["passbook_photo" := VNull]> (req_body plain_account)]] ∧
  every_call (insert_of (λ r, r !! "personal_photo" = None))
    (post_vendors plain_vendor).
Proof.
  destruct (bank_create_nulls_missing_passbook plain_account) as [Hb _].
  destruct (bank_create_nulls_missing_passbook plain_vendor) as [_ Hv].
  split_and!.
  - reflexivity.
  - destruct Hb as [_ Hcalls]; [reflexivity|].
    apply (Hcalls demo_backend demo_world); reflexivity.
  - apply (Hv ∅ "personal_photo"); reflexivity.
Defined.

(** C5, as stated, fails in its last clause: a vendor is created with a
    typed-in value for the cart photo and no file; the merged row that is
    inserted does not omit that slot, it holds the typed-in value. *)
Lemma vendor_create_keeps_body_slot_counterexample :
  let f := run demo_backend (post_vendors plain_vendor) demo_world in
  (req_files plain_vendor ≫= (.!! "cart_photo")) = None ∧
  (∃ r,
     calls f = [DbSelectMaybeSingle "vendors" ["user_id"] "phone"
                  (Some (VStr "7777777777"));
                DbInsert "vendors" [r]] ∧
     rows_of "vendors" (final f) = [vendor_u1; vendor_u2; r] ∧
     r !! "cart_photo" = Some (VStr "typed-in")) ∧
  ¬ (∀ req files slot,
       req_files req = Some files → files !! slot = None →
       every_call (insert_of (λ r, r !! slot = None)) (post_vendors req)).
Proof.
  split_and!.
  - reflexivity.
  - eexists. split_and!; reflexivity.
  - intros H. specialize (H plain_vendor ∅ "cart_photo" eq_refl eq_refl).
    cbn in H. destruct H as [_ H]. specialize (H (inr None)).
    cbn in H. destruct H as [(r & [= <-] & H) _]. discriminate H.
Qed.

Lemma apply_patch_lookup column arg (patch r : row) k :
  patch !! k = None → apply_patch column arg patch r !! k = r !! k.
Proof.
  intros Hk. unfold apply_patch. destruct (eq_filter column arg r); [|done].
  by apply lookup_union_r.
Qed.

Lemma apply_patch_keeps column arg (patch : row) k (rs : list row) :
  patch !! k = None →
  Forall2 (λ r r', r' !! k = r !! k) rs (apply_patch column arg patch <$> rs).
Proof.
  intros Hk. apply Forall2_fmap_r, Forall_Forall2_diag, Forall_forall.
  intros r _. by apply apply_patch_lookup.
Qed.

Lemma Forall2_same_slot k (rs : list row) :
  Forall2 (λ r r' : row, r' !! k = r !! k) rs rs.
Proof. by apply Forall_Forall2_diag, Forall_forall. Qed.

(** C6, as the code has it.  An update adds nothing to the patch for a
    slot without a file: the patch holds for that slot what the body
    holds, never a [null] of the handler's own.  When the body has no
    such field either, every row of the table keeps the value it had for
    that slot. *)
Theorem update_adds_nothing_for_missing_file (req : request) :
  (∀ files slot,
     req_files req = Some files → files !! slot = None →
     every_call (update_of (λ patch, patch !! slot = req_body req !! slot))
       (put_vendors_user_id req) ∧
     (req_body req !! slot = None →
      ∀ B w,
        Forall2 (λ r r', r' !! slot = r !! slot)
          (rows_of "vendors" w)
          (rows_of "vendors" (final (run B (put_vendors_user_id req) w))))) ∧
  (req_file req = None →
   every_call (update_of (λ patch, patch = req_body req))
     (put_bank_accounts_user_id req) ∧
   (req_body req !! "passbook_photo" = None →
    ∀ B w,
      Forall2 (λ r r', r' !! "passbook_photo" = r !! "passbook_photo")
        (rows_of "bank_accounts" w)
        (rows_of "bank_accounts" (final (run B (put_bank_accounts_user_id req) w))))).
Proof.
  split.
  - intros files slot Hfiles Hslot.
    assert (∀ urls : row,
              (∀ k, files !! k = None → urls !! k = None) →
              (urls ∪ req_body req) !! slot = req_body req !! slot) as Hpatch.
    { intros urls Hurls. apply lookup_union_r. by apply Hurls. }
    split.
    + unfold put_vendors_user_id, uploadToSupabase, await, file_path, update_of.
      rewrite Hfiles. cbn. answers; try done.
      all: apply Hpatch; intros k Hk.
      all: rewrite ?lookup_insert, ?lookup_empty; repeat case_decide; by simplify_eq.
    + intros Hbody B w. named_run f.
      unfold put_vendors_user_id, uploadToSupabase, await, file_path, update_of.
      rewrite Hfiles. cbn. repeat step.
      all: intros ->; cbn; try apply Forall2_same_slot.
      all: rewrite rows_of_set_tables; apply apply_patch_keeps.
      all: rewrite Hpatch; [done|]; intros k Hk.
      all: rewrite ?lookup_insert, ?lookup_empty; repeat case_decide; by simplify_eq.
  - intros Hfile. split.
    + unfold put_bank_accounts_user_id, uploadToSupabase, await, file_path, update_of.
      rewrite Hfile. cbn. answers; try done. apply (left_id_L ∅ (∪)).
    + intros Hbody B w. named_run f.
      unfold put_bank_accounts_user_id, uploadToSupabase, await, file_path, update_of.
      rewrite Hfile. cbn. repeat step.
      all: intros ->; cbn; try apply Forall2_same_slot.
      rewrite rows_of_set_tables. apply apply_patch_keeps.
      by rewrite (left_id_L ∅ (∪)).
Qed.

(** An update that sends a cart photo only keeps the personal photos; an
    update of the IFSC code keeps the passbook photos. *)
Lemma update_adds_nothing_for_missing_file_witness :
  Forall2 (λ r r' : row, r' !! "personal_photo" = r !! "personal_photo")
    [vendor_u1; vendor_u2]
    (rows_of "vendors"
       (final (run demo_backend (put_vendors_user_id recart) demo_world))) ∧
  Forall2 (λ r r' : row, r' !! "passbook_photo" = r !! "passbook_photo")
    [account_u1]
    (rows_of "bank_accounts"
       (final (run demo_backend (put_bank_accounts_user_id rebranch) demo_world))).
Proof.
  destruct (update_adds_nothing_for_missing_file recart) as [Hv _].
  destruct (update_adds_nothing_for_missing_file rebranch) as [_ Hb].
  split.
  - destruct (Hv {[ "cart_photo" := png ]} "personal_photo") as [_ Hrows];
      [reflexivity..|].
    apply (Hrows eq_refl demo_backend demo_world).
  - destruct Hb as [_ Hrows]; [reflexivity|].
    apply (Hrows eq_refl demo_backend demo_world).
Defined.

(** C6, as stated, fails: vendor [u1] is updated with a typed-in value for
    the personal photo and no file; the patch has an entry for that slot
    and the stored row's personal photo changes. *)
Lemma update_patch_entry_counterexample :
  let f := run demo_backend (put_vendors_user_id retype_personal) demo_world in
  (req_files retype_personal ≫= (.!! "personal_photo")) = None ∧
  (∃ patch,
     calls f = [DbUpdate "vendors" patch "user_id" (Some (VStr "u1"))] ∧
     patch !! "personal_photo" = Some (VStr "typed-in")) ∧
  (∃ r',
     rows_of "vendors" (final f) = [r'; vendor_u2] ∧
     vendor_u1 !! "personal_photo"
       = Some (VStr "https://cdn.example/photos/u1/vendor/personal.jpg") ∧
     r' !! "personal_photo" = Some (VStr "typed-in")) ∧
  ¬ (∀ req files slot,
       req_files req = Some files → files !! slot = None →
       every_call (update_of (λ patch, patch !! slot = None))
         (put_vendors_user_id req)).
Proof.
  split_and!.
  - reflexivity.
  - eexists. split; reflexivity.
  - eexists. split_and!; reflexivity.
  - intros H. specialize (H retype_personal ∅ "personal_photo" eq_refl eq_refl).
    cbn in H. destruct H as [H _]. discriminate H.
Qed.

(** C9. A lookup by [user_id] that selects no row is answered with status
    400 and an error message, the store's own: the single-row error when
    the store answers the query. *)
Theorem get_missing_is_error (B : backend) (w : world) (req : request)
    (h : request → prog response) (t : string) :
  (h, t) = (get_vendors_user_id, "vendors") ∨
  (h, t) = (get_bank_accounts_user_id, "bank_accounts") →
  let q := DbSelectSingle t "user_id" (Some (VStr (req_params_user_id req))) in
  matching t "user_id" (Some (VStr (req_params_user_id req))) w = [] →
  ∃ msg,
    run B (h req) w =
      {| out := Returned {| status := 400; payload := JError msg |};
         final := w; calls := [q] |} ∧
    (fault B q = None → msg = single_error).
Proof.
  intros [[= -> ->] | [= -> ->]] q Hm; subst q;
    unfold get_vendors_user_id, get_bank_accounts_user_id, await; cbn;
    rewrite Hm; destruct (fault B _); cbn; by eexists.
Qed.

(** A lookup of a user without a row, in both tables. *)
Lemma get_missing_is_error_witness :
  run demo_backend (get_vendors_user_id ghost_lookup) demo_world =
    {| out := Returned {| status := 400; payload := JError single_error |};
       final := demo_world;
       calls := [DbSelectSingle "vendors" "user_id" (Some (VStr "ghost"))] |} ∧
  run demo_backend (get_bank_accounts_user_id ghost_lookup) demo_world =
    {| out := Returned {| status := 400; payload := JError single_error |};
       final := demo_world;
       calls := [DbSelectSingle "bank_accounts" "user_id" (Some (VStr "ghost"))] |}.
Proof.
  split.
  - destruct (get_missing_is_error demo_backend demo_world ghost_lookup
                get_vendors_user_id "vendors") as (msg & Hrun & Hmsg);
      [by left | reflexivity |].
    by rewrite Hrun, Hmsg.
  - destruct (get_missing_is_error demo_backend demo_world ghost_lookup
                get_bank_accounts_user_id "bank_accounts") as (msg & Hrun & Hmsg);
      [by right | reflexivity |].
    by rewrite Hrun, Hmsg.
Defined.

Lemma apply_patch_idemp column arg (patch r : row) :
  apply_patch column arg patch (apply_patch column arg patch r)
  = apply_patch column arg patch r.
Proof.
  unfold apply_patch. destruct (eq_filter column arg r) eqn:Hr.
  - destruct (eq_filter column arg (patch ∪ r)); [|done].
    by rewrite (assoc_L (∪)), (idemp_L (∪) patch).
  - by rewrite Hr.
Qed.

Lemma apply_patch_fmap_idemp column arg (patch : row) (rs : list row) :
  apply_patch column arg patch <$> (apply_patch column arg patch <$> rs)
  = apply_patch column arg patch <$> rs.
Proof.
  rewrite <-list_fmap_compose. apply list_fmap_ext. intros i r _.
  apply apply_patch_idemp.
Qed.

Lemma world_eq (w1 w2 : world) :
  tables w1 = tables w2 → objects w1 = objects w2 → w1 = w2.
Proof. destruct w1, w2. cbn. by intros -> ->. Qed.

(** C10. Running an update a second time with the same request leaves the
    world (the rows of every table, the objects of the attachment store)
    as the first run left it, and issues the same calls as the first run:
    the same uploads of the same bytes to the same paths, the same
    update. *)
Theorem update_idempotent (B : backend) (w : world) (req : request)
    (h : request → prog response) :
  h = put_vendors_user_id ∨ h = put_bank_accounts_user_id →
  let f1 := run B (h req) w in
  let f2 := run B (h req) (final f1) in
  final f2 = final f1 ∧ calls f2 = calls f1.
Proof.
  intros [-> | ->]; cbv zeta;
    unfold put_vendors_user_id, put_bank_accounts_user_id, uploadToSupabase,
      await, file_path; cbn.
  all: repeat step.
  all: try done.
  all: split; [|done].
  all: apply world_eq; cbn.
  all: try (rewrite insert_insert_eq; f_equal; unfold rows_of; cbn; rewrite lookup_insert_eq; cbn; apply apply_patch_fmap_idemp).
  all: try done.
  all: try (apply map_eq; intros k; rewrite ?lookup_insert; repeat case_decide; done).
Qed.

(** The cart photo of [u1] is replaced twice. *)
Lemma update_idempotent_witness :
  let f1 := run demo_backend (put_vendors_user_id recart) demo_world in
  let f2 := run demo_backend (put_vendors_user_id recart) (final f1) in
  final f2 = final f1 ∧ calls f2 = calls f1.
Proof.
  apply (update_idempotent demo_backend demo_world recart put_vendors_user_id).
  left. reflexivity.
Defined.

Lemma update_handlers_never_select req h :
  h = put_vendors_user_id ∨ h = put_bank_accounts_user_id →
  every_call (λ c, is_select c = false) (h req).
Proof.
  intros [-> | ->];
    unfold put_vendors_user_id, put_bank_accounts_user_id, uploadToSupabase,
      await, file_path; cbn; answers; done.
Qed.

Lemma put_vendors_succeeds B w req files :
  (∀ c, fault B c = None) → req_files req = Some files →
  let id := Some (VStr (req_params_user_id req)) in
  let f := run B (put_vendors_user_id req) w in
  ∃ patch,
    patch !! "phone" = req_body req !! "phone" ∧
    out f = Returned (res_json (JRow (head ((patch ∪.) <$> matching "vendors" "user_id" id w)))) ∧
    rows_of "vendors" (final f) = apply_patch "user_id" id patch <$> rows_of "vendors" w.
Proof.
  intros Hok Hfiles id. subst id. named_run f.
  unfold put_vendors_user_id, uploadToSupabase, await, file_path.
  rewrite Hfiles. cbn.
  repeat first [ rewrite Hok; cbn | step ].
  all: intros ->; cbn; eexists; (split_and!; [|reflexivity|apply rows_of_set_tables]).
  all: apply lookup_union_r.
  all: by rewrite ?lookup_insert, ?lookup_empty; repeat case_decide.
Qed.

Lemma put_bank_accounts_succeeds B w req :
  (∀ c, fault B c = None) →
  let id := Some (VStr (req_params_user_id req)) in
  let f := run B (put_bank_accounts_user_id req) w in
  ∃ patch,
    patch !! "account_number" = req_body req !! "account_number" ∧
    out f = Returned (res_json (JRow (head ((patch ∪.) <$> matching "bank_accounts" "user_id" id w)))) ∧
    rows_of "bank_accounts" (final f) = apply_patch "user_id" id patch <$> rows_of "bank_accounts" w.
Proof.
  intros Hok id. subst id. named_run f.
  unfold put_bank_accounts_user_id, uploadToSupabase, await, file_path. cbn.
  repeat first [ rewrite Hok; cbn | step ].
  all: intros ->; cbn; eexists; (split_and!; [|reflexivity|apply rows_of_set_tables]).
  all: apply lookup_union_r.
  all: by repeat case_match.
Qed.

(** C8. The update handlers never read the database, so no uniqueness
    query is issued, whatever the services answer.  With services that
    reject nothing, an update answers with status 200 and patches the rows
    of the target [user_id] with the natural key of the body, whatever
    keys the other rows hold: vendor [u2] takes the phone number of [u1],
    and an account takes the account number of another. *)
Theorem update_skips_uniqueness_check :
  (∀ req h,
     h = put_vendors_user_id ∨ h = put_bank_accounts_user_id →
     every_call (λ c, is_select c = false) (h req) ∧
     ∀ B w, Forall (λ c, is_select c = false) (calls (run B (h req) w))) ∧
  (∀ B w req files,
     (∀ c, fault B c = None) → req_files req = Some files →
     let id := Some (VStr (req_params_user_id req)) in
     let f := run B (put_vendors_user_id req) w in
     ∃ patch,
       patch !! "phone" = req_body req !! "phone" ∧
       out f = Returned (res_json (JRow (head ((patch ∪.) <$>
                 matching "vendors" "user_id" id w)))) ∧
       rows_of "vendors" (final f)
         = apply_patch "user_id" id patch <$> rows_of "vendors" w) ∧
  (∀ B w req,
     (∀ c, fault B c = None) →
     let id := Some (VStr (req_params_user_id req)) in
     let f := run B (put_bank_accounts_user_id req) w in
     ∃ patch,
       patch !! "account_number" = req_body req !! "account_number" ∧
       out f = Returned (res_json (JRow (head ((patch ∪.) <$>
                 matching "bank_accounts" "user_id" id w)))) ∧
       rows_of "bank_accounts" (final f)
         = apply_patch "user_id" id patch <$> rows_of "bank_accounts" w) ∧
  (let f := run demo_backend (put_vendors_user_id take_phone) demo_world in
   ∃ r1 r2,
     out f = Returned {| status := 200; payload := JRow (Some r2) |} ∧
     rows_of "vendors" (final f) = [r1; r2] ∧
     r1 !! "user_id" = Some (VStr "u1") ∧ r2 !! "user_id" = Some (VStr "u2") ∧
     r1 !! "phone" = Some (VStr "9999999999") ∧
     r2 !! "phone" = Some (VStr "9999999999")) ∧
  (let f := run demo_backend (put_bank_accounts_user_id take_account) two_accounts in
   ∃ r1 r2,
     out f = Returned {| status := 200; payload := JRow (Some r2) |} ∧
     rows_of "bank_accounts" (final f) = [r1; r2] ∧
     r1 !! "user_id" = Some (VStr "u1") ∧ r2 !! "user_id" = Some (VStr "u2") ∧
     r1 !! "account_number" = Some (VStr "ACC1") ∧
     r2 !! "account_number" = Some (VStr "ACC1")).
Proof.
  split_and!.
  - intros req h Hh. pose proof (update_handlers_never_select req h Hh) as Hno.
    split; [done|]. intros B w. by apply every_call_run.
  - apply put_vendors_succeeds.
  - apply put_bank_accounts_succeeds.
  - cbv zeta. eexists _, _. split_and!; reflexivity.
  - cbv zeta. eexists _, _. split_and!; reflexivity.
Qed.

(** Vendor [u2] takes the phone number of [u1]. *)
Lemma update_skips_uniqueness_check_witness :
  ∃ patch : row,
    patch !! "phone" = Some (VStr "9999999999") ∧
    rows_of "vendors"
      (final (run demo_backend (put_vendors_user_id take_phone) demo_world))
    = [vendor_u1; patch ∪ vendor_u2].
Proof.
  destruct update_skips_uniqueness_check as (_ & Hv & _).
  destruct (Hv demo_backend demo_world take_phone ∅) as (patch & Hkey & _ & Hrows);
    [done | reflexivity |].
  exists patch. split; [exact Hkey|].
  rewrite Hrows. unfold apply_patch. reflexivity.
Defined.

(** C3, on the code.  An update whose [user_id] selects no row is
    answered with status 200 and no payload ([res.json(undefined)]), and
    the world is left as it was: nothing tells the caller that the target
    does not exist. *)
Theorem update_of_missing_row_answers_empty :
  (let f := run demo_backend (put_vendors_user_id ghost_vendor_update) demo_world in
   matching "vendors" "user_id" (Some (VStr "ghost")) demo_world = [] ∧
   out f = Returned {| status := 200; payload := JRow None |} ∧
   final f = demo_world) ∧
  (let f := run demo_backend (put_bank_accounts_user_id ghost_account_update)
              demo_world in
   matching "bank_accounts" "user_id" (Some (VStr "ghost")) demo_world = [] ∧
   out f = Returned {| status := 200; payload := JRow None |} ∧
   final f = demo_world).
Proof. split; cbv zeta; split_and!; reflexivity. Qed.

(** ** Further properties of the handlers *)

(** X7. A file the attachment store accepted during a create or an update
    is in the store when the request ends, however the request ends:
    nothing is rolled back when a later upload or the database write
    fails. *)
Theorem accepted_uploads_stay_stored (B : backend) (w : world) (req : request)
    (rt : route) (c : call) :
  let f := run B (handler_of rt req) w in
  c ∈ calls f → is_upload c = true → fault B c = None → stored (final f) c.
Proof.
  named_run f. destruct rt; run_route; repeat step.
  all: intros -> Hin Hup Hc; cbn in *; members Hin; subst;
    try discriminate Hup; try congruence; cbn.
  all: find_object path_ne.
Qed.

(** X7 at a sample request. *)
Lemma accepted_uploads_stay_stored_witness :
  stored (final (run strict_backend (post_vendors new_vendor) demo_world))
    (StorageUpload "photos" "u3/vendor/personal.jpg" (buffer png) true "image/jpeg").
Proof.
  apply (accepted_uploads_stay_stored strict_backend demo_world new_vendor PostVendors).
  - vm_compute. by repeat constructor.
  - reflexivity.
  - reflexivity.
Defined.

(** X5. When the store rejects the insert of a create or the update of an
    update, the handler answers 400 with the store's error and the tables
    are as before. *)
Theorem rejected_write_changes_no_row (B : backend) (w : world) (req : request)
    (rt : route) (c : call) (e : string) :
  let f := run B (handler_of rt req) w in
  c ∈ calls f → is_write c = true → fault B c = Some e →
  out f = Returned {| status := 400; payload := JError e |} ∧
  tables (final f) = tables w.
Proof.
  named_run f. destruct rt; run_route; repeat step.
  all: intros -> Hin Hup Hc; cbn in *; members Hin; subst;
    try discriminate Hup; try congruence.
  all: match goal with
       | H : fault ?B ?c = Some ?e1, H' : fault ?B ?c = Some ?e2 |- _ =>
           rewrite H in H'; injection H' as ->
       end.
  all: done.
Qed.

(** X5 at a sample request. *)
Lemma rejected_write_changes_no_row_witness :
  let f := run readonly_backend (put_bank_accounts_user_id rebranch) demo_world in
  out f = Returned {| status := 400; payload := JError "permission denied" |} ∧
  tables (final f) = tables demo_world.
Proof.
  apply (rejected_write_changes_no_row readonly_backend demo_world rebranch
           PutBankAccounts
           (DbUpdate "bank_accounts" (∅ ∪ req_body rebranch) "user_id"
              (Some (VStr "u1")))).
  - vm_compute. by repeat constructor.
  - reflexivity.
  - reflexivity.
Defined.

(** X6. When the upload of a slot fails during an update, the handler
    answers 500 with the store's error, no write to the database is
    issued and the tables are as before. *)
Theorem upload_failure_aborts_update (B : backend) (w : world) (req : request)
    (h : request → prog response) (c : call) (e : string) :
  h = put_vendors_user_id ∨ h = put_bank_accounts_user_id →
  let f := run B (h req) w in
  c ∈ calls f → is_upload c = true → fault B c = Some e →
  out f = Returned {| status := 500; payload := JError e |} ∧
  Forall (λ c', is_write c' = false) (calls f) ∧
  tables (final f) = tables w.
Proof.
  intros [-> | ->]; named_run f; run_route; repeat step.
  all: intros -> Hin Hup Hc; cbn in *; members Hin; subst;
    try discriminate Hup; try congruence.
  all: match goal with
       | H : fault ?B ?c = Some ?e1, H' : fault ?B ?c = Some ?e2 |- _ =>
           rewrite H in H'; injection H' as ->
       end.
  all: (split_and!; [done | by repeat constructor | done]).
Qed.

(** X6 at a sample request. *)
Lemma upload_failure_aborts_update_witness :
  let f := run strict_backend (put_vendors_user_id rephoto_u3) demo_world in
  out f = Returned {| status := 500; payload := JError "Payload too large" |} ∧
  Forall (λ c', is_write c' = false) (calls f) ∧
  tables (final f) = tables demo_world.
Proof.
  apply (upload_failure_aborts_update strict_backend demo_world rephoto_u3
           put_vendors_user_id
           (StorageUpload "photos" "u3/vendor/aadhar.jpg" (buffer png) true
              "image/jpeg")).
  - by left.
  - vm_compute. by repeat constructor.
  - reflexivity.
  - reflexivity.
Defined.

(** X3. A vendor request that is not multipart has no [req.files]: the
    update answers 500 without a single call, and the create answers after
    its uniqueness query alone, with 500 when the query finds no row; the
    world is left as it was. *)
Theorem vendor_routes_need_multipart (B : backend) (w : world) (req : request) :
  req_files req = None →
  (∃ msg,
     run B (put_vendors_user_id req) w =
       {| out := Returned {| status := 500; payload := JError msg |};
          final := w; calls := [] |}) ∧
  (let q := DbSelectMaybeSingle "vendors" ["user_id"] "phone"
              (req_body req !! "phone") in
   ∃ resp,
     run B (post_vendors req) w =
       {| out := Returned resp; final := w; calls := [q] |} ∧
     (fault B q = None →
      matching "vendors" "phone" (req_body req !! "phone") w = [] →
      ∃ msg, resp = {| status := 500; payload := JError msg |})).
Proof.
  intros Hfiles. split; run_route; rewrite ?Hfiles; cbn; [by eexists|].
  repeat step; eexists; (split; [done|]); intros; simplify_eq; by eexists.
Qed.

(** X3 at a sample request. *)
Lemma vendor_routes_need_multipart_witness :
  ∃ msg,
    run demo_backend (put_vendors_user_id json_vendor_update) demo_world =
      {| out := Returned {| status := 500; payload := JError msg |};
         final := demo_world; calls := [] |}.
Proof.
  destruct (vendor_routes_need_multipart demo_backend demo_world json_vendor_update)
    as [Hput _]; [reflexivity|]. exact Hput.
Defined.

(** X4. A create changes the tables exactly when it answers 200, and then
    by appending the returned row to the end of its own table; with any
    other status the tables are as before. *)
Theorem create_appends_exactly_on_success (B : backend) (w : world) (req : request)
    (rt : route) (resp : response) :
  rt = PostVendors ∨ rt = PostBankAccounts →
  let f := run B (handler_of rt req) w in
  out f = Returned resp →
  (status resp = 200 →
   ∃ r, payload resp = JRow (Some r) ∧
        tables (final f)
          = <[table_of rt := (rows_of (table_of rt) w ++ [r])%list]> (tables w)) ∧
  (status resp ≠ 200 → tables (final f) = tables w).
Proof.
  intros [-> | ->]; named_run f; run_route; repeat step.
  all: intros -> [= <-]; cbn; split; try done; intros _; by eexists.
Qed.

(** X4 at a sample request. *)
Lemma create_appends_exactly_on_success_witness :
  ∃ r,
    payload (sent demo_backend post_vendors new_vendor demo_world) = JRow (Some r) ∧
    tables (final (run demo_backend (post_vendors new_vendor) demo_world))
    = <["vendors" := [vendor_u1; vendor_u2; r]]> (tables demo_world).
Proof.
  destruct (create_appends_exactly_on_success demo_backend demo_world new_vendor
              PostVendors (sent demo_backend post_vendors new_vendor demo_world))
    as [Hok _]; [by left | reflexivity |].
  apply Hok. reflexivity.
Defined.

(** X10. An update keeps the number of rows of its table, leaves every row
    with another [user_id] as it was, and leaves the other tables alone. *)
Theorem update_touches_target_rows_only (B : backend) (w : world) (req : request)
    (rt : route) :
  rt = PutVendors ∨ rt = PutBankAccounts →
  let f := run B (handler_of rt req) w in
  let id := Some (VStr (req_params_user_id req)) in
  length (rows_of (table_of rt) (final f)) = length (rows_of (table_of rt) w) ∧
  (∀ i r, rows_of (table_of rt) w !! i = Some r →
          eq_filter "user_id" id r = false →
          rows_of (table_of rt) (final f) !! i = Some r) ∧
  (∀ t, t ≠ table_of rt → rows_of t (final f) = rows_of t w).
Proof.
  assert (∀ t patch id rs,
            length (apply_patch "user_id" id patch <$> rs) = length rs ∧
            (∀ i r, rs !! i = Some r → eq_filter "user_id" id r = false →
                    (apply_patch "user_id" id patch <$> rs) !! i = Some r) ∧
            (∀ t', t' ≠ t →
               rows_of t' (set_tables w t (apply_patch "user_id" id patch <$> rs))
               = rows_of t' w)) as Hpatched.
  { intros t patch id rs. split_and!.
    - by rewrite length_fmap.
    - intros i r Hi Hr. rewrite list_lookup_fmap, Hi. cbn.
      unfold apply_patch. by rewrite Hr.
    - intros t' Ht'. unfold rows_of, set_tables. cbn. by rewrite lookup_insert_ne. }
  intros [-> | ->]; named_run f; run_route; repeat step.
  all: intros ->; cbn; try done.
  all: rewrite rows_of_set_tables; apply Hpatched.
Qed.

(** X10 at a sample request. *)
Lemma update_touches_target_rows_only_witness :
  rows_of "vendors" (final (run demo_backend (put_vendors_user_id take_phone) demo_world))
    !! 0 = Some vendor_u1.
Proof.
  destruct (update_touches_target_rows_only demo_backend demo_world take_phone PutVendors)
    as (_ & Hkeep & _); [by left|].
  apply Hkeep; reflexivity.
Defined.

(** X9. A create or an update of a user whose id is plain (letters,
    digits, [-], [_]: the storage client sends its paths as they are)
    writes no object but those of its own slots: an object under any other
    key than [{userId}/{folder}/{fileName}] of the bucket [photos], for the
    route's folder and file names and the request's user id, is as
    before. *)
Theorem requests_write_own_slot_objects_only (B : backend) (w : world)
    (req : request) (rt : route) (k : string * string) :
  plain_id (user_of rt req) = true →
  (∀ slot fileName, (slot, fileName) ∈ slots_of rt → k ≠ object_key rt req fileName) →
  objects (final (run B (handler_of rt req) w)) !! k = objects w !! k.
Proof.
  intros _ Hk. named_run f. revert Hk.
  destruct rt; unfold slots_of, vendor_slots, bank_slot, object_key, user_of, folder_of;
    run_route; repeat step.
  all: intros Hk ->; cbn; try done.
  all: rewrite ?lookup_insert_ne; try done.
  all: intros <-; eapply Hk; [|reflexivity]; by repeat constructor.
Qed.

(** X9 at a sample request. *)
Lemma requests_write_own_slot_objects_only_witness :
  objects (final (run demo_backend (post_vendors new_vendor) demo_world))
    !! ("photos", "u1/vendor/personal.jpg")
  = objects demo_world !! ("photos", "u1/vendor/personal.jpg").
Proof.
  apply (requests_write_own_slot_objects_only demo_backend demo_world new_vendor
           PostVendors).
  - reflexivity.
  - intros slot fileName Hin. cbn in Hin. members Hin; simplify_eq; discriminate.
Defined.

(** X1. Every handler answers every request, whatever the services do: the
    create and update handlers with status 200, 400 or 500, the four read
    handlers with 200 or 400, leaving the world as it was and issuing
    select calls only. *)
Theorem handlers_answer_200_400_500 (B : backend) (w : world) (req : request)
    (h : request → prog response) :
  (h ∈ [post_vendors; put_vendors_user_id; post_bank_accounts;
        put_bank_accounts_user_id] →
   ∃ resp, out (run B (h req) w) = Returned resp ∧
           (status resp = 200 ∨ status resp = 400 ∨ status resp = 500)) ∧
  (h ∈ [get_vendors; get_vendors_user_id; get_bank_accounts;
        get_bank_accounts_user_id] →
   ∃ resp, out (run B (h req) w) = Returned resp ∧
           (status resp = 200 ∨ status resp = 400) ∧
           final (run B (h req) w) = w ∧
           Forall (λ c, is_select c = true) (calls (run B (h req) w))).
Proof.
  split; intros Hh; members Hh; subst.
  all: unfold get_vendors, get_vendors_user_id, get_bank_accounts,
         get_bank_accounts_user_id; run_route; repeat step.
  all: eexists; split_and!; try done; eauto.
  all: by repeat constructor.
Qed.

(** X1 at a sample request. *)
Lemma handlers_answer_200_400_500_witness :
  ∃ resp,
    out (run demo_backend (get_vendors ghost_lookup) demo_world) = Returned resp ∧
    (status resp = 200 ∨ status resp = 400) ∧
    final (run demo_backend (get_vendors ghost_lookup) demo_world) = demo_world ∧
    Forall (λ c, is_select c = true)
      (calls (run demo_backend (get_vendors ghost_lookup) demo_world)).
Proof.
  destruct (handlers_answer_200_400_500 demo_backend demo_world ghost_lookup get_vendors)
    as [_ Hget].
  apply Hget. by repeat constructor.
Defined.

(** X2. A lookup by [user_id] answers 200 exactly when the store answers
    the query and one single row has that [user_id]; the payload is then
    that row.  No row, or several rows, give an error response. *)
Theorem get_answers_200_iff_single_row (B : backend) (w : world) (req : request)
    (h : request → prog response) (t : string) (resp : response) :
  (h, t) = (get_vendors_user_id, "vendors") ∨
  (h, t) = (get_bank_accounts_user_id, "bank_accounts") →
  let q := DbSelectSingle t "user_id" (Some (VStr (req_params_user_id req))) in
  out (run B (h req) w) = Returned resp →
  (status resp = 200 ↔
   fault B q = None ∧
   ∃ r, matching t "user_id" (Some (VStr (req_params_user_id req))) w = [r] ∧
        payload resp = JRow (Some r)).
Proof.
  intros [[= -> ->] | [= -> ->]] q; subst q;
    unfold get_vendors_user_id, get_bank_accounts_user_id, await; cbn;
    destruct (fault B _); cbn.
  all: try destruct (matching _ _ _ w) as [|r1 [|r2 rs]]; cbn.
  all: intros [= <-]; cbn; split; try done.
  all: try by intros [? ?].
  all: try by intros (_ & r & ? & _).
  all: intros _; split; [done|]; by eexists.
Qed.

(** X2 at a sample request. *)
Lemma get_answers_200_iff_single_row_witness :
  status (sent demo_backend get_vendors_user_id lookup_u1 demo_world) = 200.
Proof.
  apply (get_answers_200_iff_single_row demo_backend demo_world lookup_u1
           get_vendors_user_id "vendors").
  - by left.
  - reflexivity.
  - split; [reflexivity|]. exists vendor_u1. split; reflexivity.
Defined.

(** What a successful create did: the uniqueness query selected no row,
    and the row returned was appended to the table with the body's own
    values in the fields that are not slots. *)

Lemma create_success (B : backend) (w : world) (req : request) (rt : route)
    (resp : response) :
  rt = PostVendors ∨ rt = PostBankAccounts →
  let f := run B (handler_of rt req) w in
  out f = Returned resp → status resp = 200 →
  ∃ r,
    payload resp = JRow (Some r) ∧
    rows_of (table_of rt) (final f) = (rows_of (table_of rt) w ++ [r])%list ∧
    matching (table_of rt) (key_of rt) (req_body req !! key_of rt) w = [] ∧
    ∀ k, (∀ fileName, (k, fileName) ∉ slots_of rt) → r !! k = req_body req !! k.
Proof.
  intros [-> | ->]; named_run f; run_route; repeat step.
  all: intros -> [= <-]; cbn; try discriminate.
  all: intros _; eexists;
    (split_and!; [reflexivity | apply rows_of_set_tables | done |]).
  all: intros k Hk.
  all: try (apply lookup_union_r).
  all: rewrite ?lookup_insert, ?lookup_empty; repeat case_decide; subst; try done.
  all: exfalso; eapply Hk; unfold vendor_slots, bank_slot; by repeat constructor.
Qed.

Lemma rows_of_final_matching t column arg (w w' : world) (r : row) :
  rows_of t w' = (rows_of t w ++ [r])%list →
  matching t column arg w' =
    (matching t column arg w ++ if eq_filter column arg r then [r] else [])%list.
Proof.
  intros Hrows. unfold matching. rewrite Hrows, filter_app. f_equal.
  rewrite filter_cons, filter_nil. destruct (eq_filter column arg r); by case_decide.
Qed.

Lemma eq_filter_text column (a b : option value) (r : row) :
  js_string a = js_string b → eq_filter column a r = eq_filter column b r.
Proof. intros Hab. unfold eq_filter. by rewrite Hab. Qed.

Lemma matching_text t column (a b : option value) (w : world) :
  js_string a = js_string b → matching t column a w = matching t column b w.
Proof.
  intros Hab. unfold matching. apply list_filter_iff. intros r.
  by rewrite (eq_filter_text column a b r Hab).
Qed.

Lemma eq_filter_own column (v : value) (r : row) :
  r !! column = Some v → v ≠ VNull → eq_filter column (Some v) r = true.
Proof.
  intros Hr Hv. unfold eq_filter. rewrite Hr. cbn.
  destruct v; try done; cbn; by apply bool_decide_eq_true.
Qed.

(** X12. After a create that answers 200, listing the table gives the rows
    it had before followed by the row the create returned. *)
Theorem created_row_is_listed (B : backend) (w : world) (req req' : request)
    (rt : route) (resp : response) :
  rt = PostVendors ∨ rt = PostBankAccounts →
  let f := run B (handler_of rt req) w in
  out f = Returned resp → status resp = 200 →
  fault B (DbSelectAll (table_of rt)) = None →
  ∃ r,
    payload resp = JRow (Some r) ∧
    run B (list_of rt req') (final f) =
      {| out := Returned {| status := 200;
                            payload := JRows (rows_of (table_of rt) w ++ [r]) |};
         final := final f; calls := [DbSelectAll (table_of rt)] |}.
Proof.
  intros Hrt f Hout Hok Hlist.
  destruct (create_success B w req rt resp Hrt Hout Hok) as (r & Hr & Hrows & _).
  exists r. split; [done|]. fold f in Hrows.
  destruct Hrt as [-> | ->]; unfold list_of, get_vendors, get_bank_accounts, await;
    cbn in *; by rewrite Hlist, Hrows.
Qed.

(** X12 at a sample request. *)
Lemma created_row_is_listed_witness :
  ∃ r,
    run demo_backend (get_vendors ghost_lookup)
      (final (run demo_backend (post_vendors new_vendor) demo_world)) =
      {| out := Returned {| status := 200;
                            payload := JRows [vendor_u1; vendor_u2; r] |};
         final := final (run demo_backend (post_vendors new_vendor) demo_world);
         calls := [DbSelectAll "vendors"] |}.
Proof.
  destruct (created_row_is_listed demo_backend demo_world new_vendor ghost_lookup
              PostVendors (sent demo_backend post_vendors new_vendor demo_world))
    as (r & _ & Hrun); [by left | reflexivity..|].
  exists r. exact Hrun.
Defined.

(** X13. After a create that answers 200 for a body whose [user_id] is not
    null and was the [user_id] of no row, the lookup of that [user_id]
    answers 200 with the row the create returned. *)
Theorem created_row_is_found (B : backend) (w : world) (req req' : request)
    (rt : route) (resp : response) (v : value) :
  rt = PostVendors ∨ rt = PostBankAccounts →
  let f := run B (handler_of rt req) w in
  let id := Some (VStr (req_params_user_id req')) in
  out f = Returned resp → status resp = 200 →
  req_body req !! "user_id" = Some v → v ≠ VNull →
  req_params_user_id req' = js_string (Some v) →
  matching (table_of rt) "user_id" id w = [] →
  fault B (DbSelectSingle (table_of rt) "user_id" id) = None →
  ∃ r,
    payload resp = JRow (Some r) ∧
    run B (lookup_of rt req') (final f) =
      {| out := Returned {| status := 200; payload := JRow (Some r) |};
         final := final f;
         calls := [DbSelectSingle (table_of rt) "user_id" id] |}.
Proof.
  intros Hrt f id Hout Hok Hv Hnull Hid Hfresh Hq.
  destruct (create_success B w req rt resp Hrt Hout Hok) as (r & Hr & Hrows & _ & Hbody).
  exists r. split; [done|]. fold f in Hrows.
  assert (matching (table_of rt) "user_id" id (final f) = [r]) as Hm.
  { rewrite (rows_of_final_matching _ _ _ w _ r Hrows), Hfresh. cbn.
    assert (eq_filter "user_id" id r = true) as ->; [|done].
    rewrite (eq_filter_text _ id (Some v)) by (by subst id; cbn; rewrite Hid).
    apply eq_filter_own; [|done]. rewrite Hbody; [done|].
    intros fileName Hin. destruct Hrt as [-> | ->]; cbn in Hin; members Hin; done. }
  subst id.
  destruct Hrt as [-> | ->];
    unfold lookup_of, get_vendors_user_id, get_bank_accounts_user_id, await;
    cbn in *; by rewrite Hq, Hm.
Qed.

(** X13 at a sample request. *)
Lemma created_row_is_found_witness :
  ∃ r,
    payload (sent demo_backend post_vendors new_vendor demo_world) = JRow (Some r) ∧
    run demo_backend (get_vendors_user_id lookup_u3)
      (final (run demo_backend (post_vendors new_vendor) demo_world)) =
      {| out := Returned {| status := 200; payload := JRow (Some r) |};
         final := final (run demo_backend (post_vendors new_vendor) demo_world);
         calls := [DbSelectSingle "vendors" "user_id" (Some (VStr "u3"))] |}.
Proof.
  destruct (created_row_is_found demo_backend demo_world new_vendor lookup_u3
              PostVendors (sent demo_backend post_vendors new_vendor demo_world)
              (VStr "u3"))
    as (r & Hr & Hrun); [by left | reflexivity | reflexivity | reflexivity | done
                         | reflexivity..|].
  exists r. split; [exact Hr | exact Hrun].
Defined.

(** X14. After a create that answers 200 for a body whose natural key is
    not null, a create with the same key is answered 400 with the
    duplicate-key message after its uniqueness query alone, and changes
    nothing. *)
Theorem second_create_is_duplicate (B : backend) (w : world) (req req' : request)
    (rt : route) (resp : response) (v : value) :
  rt = PostVendors ∨ rt = PostBankAccounts →
  let f := run B (handler_of rt req) w in
  let q := DbSelectMaybeSingle (table_of rt) ["user_id"] (key_of rt)
             (req_body req' !! key_of rt) in
  out f = Returned resp → status resp = 200 →
  req_body req !! key_of rt = Some v → v ≠ VNull →
  js_string (req_body req' !! key_of rt) = js_string (Some v) →
  fault B q = None →
  run B (handler_of rt req') (final f) =
    {| out := Returned {| status := 400; payload := JError (duplicate_message rt) |};
       final := final f; calls := [q] |}.
Proof.
  intros Hrt f q Hout Hok Hv Hnull Hsame Hq. subst q.
  destruct (create_success B w req rt resp Hrt Hout Hok)
    as (r & Hr & Hrows & Hfresh & Hbody).
  fold f in Hrows.
  assert (matching (table_of rt) (key_of rt) (req_body req' !! key_of rt) (final f)
          = [r]) as Hm.
  { rewrite (rows_of_final_matching _ _ _ w _ r Hrows).
    rewrite (matching_text _ _ _ (Some v)) by done.
    rewrite <-Hv, Hfresh. cbn.
    assert (eq_filter (key_of rt) (req_body req' !! key_of rt) r = true) as ->; [|done].
    rewrite (eq_filter_text _ _ (Some v)) by done.
    apply eq_filter_own; [|done]. rewrite Hbody; [done|].
    intros fileName Hin. destruct Hrt as [-> | ->]; cbn in Hin; members Hin; done. }
  destruct Hrt as [-> | ->]; run_route; cbn in *; by rewrite Hq, Hm.
Qed.

(** X14 at a sample request. *)
Lemma second_create_is_duplicate_witness :
  run demo_backend (post_vendors plain_vendor)
    (final (run demo_backend (post_vendors new_vendor) demo_world)) =
    {| out := Returned
                {| status := 400;
                   payload := JError "Phone number already exists for another vendor" |};
       final := final (run demo_backend (post_vendors new_vendor) demo_world);
       calls := [DbSelectMaybeSingle "vendors" ["user_id"] "phone"
                   (Some (VStr "7777777777"))] |}.
Proof.
  apply (second_create_is_duplicate demo_backend demo_world new_vendor plain_vendor
           PostVendors (sent demo_backend post_vendors new_vendor demo_world)
           (VStr "7777777777")); [by left | reflexivity..| done | reflexivity
                                  | reflexivity].
Defined.

(** A create reads the world through its uniqueness query alone. *)

Lemma create_replay (B : backend) (w1 w2 : world) (req : request) (rt : route) :
  rt = PostVendors ∨ rt = PostBankAccounts →
  matching (table_of rt) (key_of rt) (req_body req !! key_of rt) w1 = [] →
  matching (table_of rt) (key_of rt) (req_body req !! key_of rt) w2 = [] →
  out (run B (handler_of rt req) w1) = out (run B (handler_of rt req) w2).
Proof.
  intros [-> | ->]; cbn [table_of key_of]; intros H1 H2; run_route.
  all: destruct (fault B _); cbn; [done|]; rewrite H1, H2; cbn.
  all: repeat step; done.
Qed.

(** X15. The uniqueness check does not guard a missing key: when a create
    whose body has no natural key (or a null one) answers 200, the same
    request sent again answers 200 again and the table ends with the row
    twice. *)
Theorem keyless_create_is_not_guarded (B : backend) (w : world) (req : request)
    (rt : route) (resp : response) :
  rt = PostVendors ∨ rt = PostBankAccounts →
  let f := run B (handler_of rt req) w in
  let f2 := run B (handler_of rt req) (final f) in
  out f = Returned resp → status resp = 200 →
  req_body req !! key_of rt = None ∨ req_body req !! key_of rt = Some VNull →
  ∃ r,
    payload resp = JRow (Some r) ∧
    out f2 = Returned resp ∧
    rows_of (table_of rt) (final f2) = (rows_of (table_of rt) w ++ [r; r])%list.
Proof.
  intros Hrt f f2 Hout Hok Hkey.
  destruct (create_success B w req rt resp Hrt Hout Hok)
    as (r & Hr & Hrows & Hfresh & Hbody).
  fold f in Hrows.
  assert (eq_filter (key_of rt) (req_body req !! key_of rt) r = false) as Hno.
  { unfold eq_filter. rewrite Hbody.
    - by destruct Hkey as [-> | ->].
    - intros fileName Hin. destruct Hrt as [-> | ->]; cbn in Hin; members Hin; done. }
  assert (matching (table_of rt) (key_of rt) (req_body req !! key_of rt) (final f)
          = []) as Hm.
  { by rewrite (rows_of_final_matching _ _ _ w _ r Hrows), Hfresh, Hno. }
  assert (out f2 = Returned resp) as Hout2.
  { unfold f2. by rewrite (create_replay B (final f) w req rt Hrt Hm Hfresh). }
  destruct (create_success B (final f) req rt resp Hrt Hout2 Hok)
    as (r2 & Hr2 & Hrows2 & _).
  fold f2 in Hrows2. exists r. split_and!; [done..|].
  rewrite Hr in Hr2. injection Hr2 as <-.
  by rewrite Hrows2, Hrows, <-(assoc_L (++)).
Qed.

(** X15 at a sample request. *)
Lemma keyless_create_is_not_guarded_witness :
  ∃ r,
    rows_of "vendors"
      (final (run demo_backend (post_vendors keyless_vendor)
                (final (run demo_backend (post_vendors keyless_vendor) demo_world))))
    = [vendor_u1; vendor_u2; r; r].
Proof.
  destruct (keyless_create_is_not_guarded demo_backend demo_world keyless_vendor
              PostVendors (sent demo_backend post_vendors keyless_vendor demo_world))
    as (r & _ & _ & Hrows); [by left | reflexivity | reflexivity | by left |].
  exists r. exact Hrows.
Defined.

(** X8. After a create or an update that answers 200 for a user whose id
    is plain (letters, digits, [-], [_]: the storage client sends its
    paths as they are), the attachment store holds, for every slot that
    came with a file, the bytes of that file under
    [{userId}/{folder}/{fileName}] with the content type [image/jpeg],
    whatever it held there before. *)
Theorem successful_request_stores_its_files (B : backend) (w : world)
    (req : request) (rt : route) (slot fileName : string) (f : mfile)
    (resp : response) :
  plain_id (user_of rt req) = true →
  (slot, fileName) ∈ slots_of rt → file_in rt req slot = Some f →
  let r := run B (handler_of rt req) w in
  out r = Returned resp → status resp = 200 →
  objects (final r) !! object_key rt req fileName
  = Some {| content := buffer f; content_type := "image/jpeg" |}.
Proof.
  intros _ Hslot Hfile. named_run r. revert Hslot Hfile.
  destruct rt; unfold slots_of, vendor_slots, bank_slot, file_in, object_key,
    user_of, folder_of; run_route; repeat step.
  all: intros Hslot Hfile -> [= <-]; cbn; try discriminate; intros _.
  all: members Hslot; simplify_eq; cbn in *; simplify_eq.
  all: unfold file_path; find_object path_ne.
Qed.

(** X8 at a sample request. *)
Lemma successful_request_stores_its_files_witness :
  objects (final (run demo_backend (post_vendors new_vendor) demo_world))
    !! ("photos", "u3/vendor/cart.jpg")
  = Some {| content := buffer png; content_type := "image/jpeg" |}.
Proof.
  apply (successful_request_stores_its_files demo_backend demo_world new_vendor
           PostVendors "cart_photo" "cart.jpg" png
           (sent demo_backend post_vendors new_vendor demo_world)).
  - reflexivity.
  - by repeat constructor.
  - reflexivity.
  - reflexivity.
  - reflexivity.
Defined.

(** X11. After an update that answers 200, every row of the target
    [user_id] holds, for a slot that came with a file, the public URL of
    the uploaded file (for the passbook photo provided that URL is not
    the empty string, which the handler tests). *)
Theorem update_sets_uploaded_url (B : backend) (w : world) (req : request)
    (rt : route) (slot fileName : string) (f : mfile) (resp : response) :
  rt = PutVendors ∨ rt = PutBankAccounts →
  (slot, fileName) ∈ slots_of rt → file_in rt req slot = Some f →
  let url := public_url B "photos"
               (file_path (req_params_user_id req) (folder_of rt) fileName) in
  let id := Some (VStr (req_params_user_id req)) in
  let r := run B (handler_of rt req) w in
  (rt = PutBankAccounts → url ≠ "") →
  out r = Returned resp → status resp = 200 →
  ∀ i old,
    rows_of (table_of rt) w !! i = Some old →
    eq_filter "user_id" id old = true →
    ∃ new,
      rows_of (table_of rt) (final r) !! i = Some new ∧
      new !! slot = Some (VStr url).
Proof.
  intros Hrt Hslot Hfile url id. subst url id. named_run r. revert Hslot Hfile.
  destruct Hrt as [-> | ->]; unfold slots_of, vendor_slots, bank_slot, file_in,
    folder_of; run_route; repeat step.
  all: intros Hslot Hfile -> Hurl [= <-]; cbn; try discriminate; intros _ i old Hi Hold.
  all: rewrite rows_of_set_tables, list_lookup_fmap; past_objects; rewrite Hi; cbn.
  all: unfold apply_patch; rewrite Hold; eexists; (split; [reflexivity|]).
  all: members Hslot; simplify_eq; cbn in *; simplify_eq.
  all: try by (erewrite lookup_union_Some_l; [done|]; simplify_map_eq).
  all: unfold file_path in *; rewrite bool_decide_eq_false_2 by (by apply Hurl); cbn.
  all: by (erewrite lookup_union_Some_l; [done|]; simplify_map_eq).
Qed.

(** X11 at a sample request. *)
Lemma update_sets_uploaded_url_witness :
  ∃ new,
    rows_of "vendors" (final (run demo_backend (put_vendors_user_id recart) demo_world))
      !! 0 = Some new ∧
    new !! "cart_photo" = Some (VStr "https://cdn.example/photos/u1/vendor/cart.jpg").
Proof.
  apply (update_sets_uploaded_url demo_backend demo_world recart PutVendors
           "cart_photo" "cart.jpg" png
           (sent demo_backend put_vendors_user_id recart demo_world)
           (or_introl eq_refl)) with (old := vendor_u1).
  - by repeat constructor.
  - reflexivity.
  - discriminate.
  - reflexivity.
  - reflexivity.
  - reflexivity.
  - reflexivity.
Defined.
